(** * Neuropod config utilities: validation, canonicalisation, persistence

    A shallow embedding of
    [source/neuropods/python/backends/config_utils.py] and the properties
    its specification states about it.

    The module is Python 2 code working on dynamically typed values
    (dicts, lists, tuples, strings, numbers, [None]).  The embedding keeps
    that shape: a type [pyval] of Python values, exceptions as the error
    side of a [result], the package directory as a finite map from paths
    to nodes, and the numpy name resolver, which is not part of the
    sources, as a parameter of the functions that call it. *)

From Stdlib Require Import ZArith Ascii String List Bool Lia SpecFloat.
From stdpp Require Import base option gmap strings list fin_maps.

Set Warnings "-register-all".
Local Open Scope Z_scope.
Local Open Scope string_scope.

(** ** Python values *)

(** The values the module can meet in a config: what JSON can hold, plus
    tuples.  [PyInt] stands for a Python 2 [int] or [long] and [PyStr] for
    a [str] or [unicode] text: the code never tells the two members of a
    pair apart ([isinstance(dim, (int, long))], [isinstance(name,
    basestring)]).  A [dict] has string keys, as every dict the module
    builds or loads has. *)
Inductive pyval : Type :=
| PyNone
| PyBool (b : bool)
| PyInt (z : Z)
| PyFloat (f : spec_float)
| PyStr (s : string)
| PyList (l : list pyval)
| PyTuple (l : list pyval)
| PyDict (d : gmap string pyval).

(** Which message a field-type error carries: the one of
    [validate_tensor_spec] ("Field 'name' must be a string!") or the one of
    [validate_neuropod_config] ("Field 'name' in config must be a
    string!"). *)
Inductive scope := InSpec | InConfig.

(** The exceptions that can leave the module.  The first four are the
    [ValueError]s the module raises itself; the others come from the
    operations it calls. *)
Inductive error : Type :=
| InvalidDtype (got : pyval)
| InvalidFieldType (where_ : scope) (field : string) (got : pyval)
| InvalidDimension (got : pyval)
| UnrecognizedDtype (got : pyval)      (* numpy: data type not understood *)
| KeyError (key : string)              (* d[key] on a dict without key *)
| NotSubscriptable (got : pyval)       (* v[key] where v is no dict *)
| NotIterable (got : pyval)            (* for x in v *)
| IOError (path : string)              (* open() failed *)
| JSONDecodeError.                     (* json.load on a file with no document *)

Inductive result (A : Type) : Type :=
| Ok (a : A)
| Raise (e : error).
Arguments Ok {A} a.
Arguments Raise {A} e.

#[global] Instance result_ret : MRet result := fun A a => Ok a.
#[global] Instance result_bind : MBind result := fun A B f r =>
  match r with
  | Ok a => f a
  | Raise e => Raise e
  end.

(** [for x in l: body(x)], stopping at the first exception. *)
Fixpoint for_each {A : Type} (body : A -> result unit) (l : list A) : result unit :=
  match l with
  | [] => Ok tt
  | x :: rest => body x ≫= fun _ => for_each body rest
  end.

(** The loop that appends [f x] to a fresh list for every [x]. *)
Fixpoint collect {A B : Type} (f : A -> result B) (l : list A) : result (list B) :=
  match l with
  | [] => Ok []
  | x :: rest => y ← f x; ys ← collect f rest; Ok (y :: ys)
  end.

(** ** The Python operations the module uses *)

Definition isinstance_basestring (v : pyval) : bool :=
  match v with PyStr _ => true | _ => false end.

Definition isinstance_bool (v : pyval) : bool :=
  match v with PyBool _ => true | _ => false end.

(** [isinstance(v, (int, long))]: [bool] is a subclass of [int]. *)
Definition isinstance_int (v : pyval) : bool :=
  match v with PyInt _ | PyBool _ => true | _ => false end.

Definition isinstance_list_tuple (v : pyval) : bool :=
  match v with PyList _ | PyTuple _ => true | _ => false end.

Definition is_None (v : pyval) : bool :=
  match v with PyNone => true | _ => false end.

(** [v > 0].  Numbers compare by value, [True] being 1; in Python 2 [None]
    is below every number and every other object above. *)
Definition gt_zero (v : pyval) : bool :=
  match v with
  | PyNone => false
  | PyBool b => b
  | PyInt z => (0 <? z)%Z
  | PyFloat f => SFltb (S754_zero false) f
  | PyStr _ | PyList _ | PyTuple _ | PyDict _ => true
  end.

(** [v in names] for a list of strings: [==] against each element. *)
Definition py_in (v : pyval) (names : list string) : bool :=
  match v with
  | PyStr s => existsb (String.eqb s) names
  | _ => false
  end.

(** [v[key]] *)
Definition getitem (v : pyval) (key : string) : result pyval :=
  match v with
  | PyDict d =>
      match d !! key with
      | Some x => Ok x
      | None => Raise (KeyError key)
      end
  | _ => Raise (NotSubscriptable v)
  end.

Fixpoint chars (s : string) : list pyval :=
  match s with
  | EmptyString => []
  | String c rest => PyStr (String c EmptyString) :: chars rest
  end.

(** What [for x in v] goes through: the elements of a list or tuple, the
    keys of a dict (in the order the map holds them), the characters of a
    string. *)
Definition py_iter (v : pyval) : result (list pyval) :=
  match v with
  | PyList l | PyTuple l => Ok l
  | PyDict d => Ok (PyStr <$> (map_to_list d).*1)
  | PyStr s => Ok (chars s)
  | _ => Raise (NotIterable v)
  end.

(** ** The module *)

Definition ALLOWED_DTYPES : list string :=
  [ "float32"; "float64"; "string";
    "int8"; "int16"; "int32"; "int64";
    "uint8"; "uint16"; "uint32"; "uint64" ].

(** The body of the inner loop of [validate_tensor_spec]. *)
Definition validate_dim (dim : pyval) : result unit :=
  let is_uint := negb (isinstance_bool dim) && isinstance_int dim && gt_zero dim in
  if is_None dim || is_uint || isinstance_basestring dim
  then Ok tt
  else Raise (InvalidDimension dim).

(** The body of the outer loop of [validate_tensor_spec]. *)
Definition validate_item (item : pyval) : result unit :=
  name ← getitem item "name";
  dtype ← getitem item "dtype";
  shape ← getitem item "shape";
  if negb (py_in dtype ALLOWED_DTYPES) then Raise (InvalidDtype dtype)
  else if negb (isinstance_basestring name) then Raise (InvalidFieldType InSpec "name" name)
  else if negb (isinstance_list_tuple shape) then Raise (InvalidFieldType InSpec "shape" shape)
  else dims ← py_iter shape; for_each validate_dim dims.

Definition validate_tensor_spec (spec : pyval) : result unit :=
  items ← py_iter spec;
  for_each validate_item items.

Definition validate_neuropod_config (config : pyval) : result unit :=
  name ← getitem config "name";
  platform ← getitem config "platform";
  if negb (isinstance_basestring name) then Raise (InvalidFieldType InConfig "name" name)
  else if negb (isinstance_basestring platform)
  then Raise (InvalidFieldType InConfig "platform" platform)
  else
    input_spec ← getitem config "input_spec";
    _ ← validate_tensor_spec input_spec;
    output_spec ← getitem config "output_spec";
    validate_tensor_spec output_spec.

(** ** JSON documents *)

(** What a [config.json] holds once written: a JSON value.  The text of
    the file (indentation, order of the keys of an object, which Python 2
    takes from the hash order of the dict) is left out: a file is modelled
    by the document its text denotes. *)
Inductive json : Type :=
| JNull
| JBool (b : bool)
| JInt (z : Z)
| JFloat (f : spec_float)
| JStr (s : string)
| JArr (l : list json)
| JObj (o : gmap string json).

(** [json.dump]: lists and tuples both become arrays. *)
Fixpoint json_dump (v : pyval) : json :=
  match v with
  | PyNone => JNull
  | PyBool b => JBool b
  | PyInt z => JInt z
  | PyFloat f => JFloat f
  | PyStr s => JStr s
  | PyList l | PyTuple l => JArr (map json_dump l)
  | PyDict d => JObj (json_dump <$> d)
  end.

(** [json.load]: an array becomes a list. *)
Fixpoint json_load (j : json) : pyval :=
  match j with
  | JNull => PyNone
  | JBool b => PyBool b
  | JInt z => PyInt z
  | JFloat f => PyFloat f
  | JStr s => PyStr s
  | JArr l => PyList (map json_load l)
  | JObj o => PyDict (json_load <$> o)
  end.

(** What a value looks like after a trip through JSON: every tuple has
    become a list. *)
Fixpoint tuples_to_lists (v : pyval) : pyval :=
  match v with
  | PyList l | PyTuple l => PyList (map tuples_to_lists l)
  | PyDict d => PyDict (tuples_to_lists <$> d)
  | _ => v
  end.

(** The number of constructors of a value, a measure for induction. *)
Fixpoint py_size (v : pyval) : nat :=
  match v with
  | PyList l | PyTuple l => S (foldr (fun x acc => py_size x + acc)%nat 0%nat l)
  | PyDict d => S (map_fold (fun _ x acc => py_size x + acc)%nat 0%nat d)
  | _ => 1%nat
  end.

(** ** The file system *)

(** A file opened with mode ["w"] is empty until something is written to
    it; the only thing the module writes is one JSON document. *)
Inductive content : Type :=
| EmptyFile
| JsonFile (j : json).

Inductive node : Type :=
| Dir
| File (c : content).

(** Paths are compared as strings: a directory is found under the string
    the caller names it by. *)
Abbreviation filesystem := (gmap string node).

Definition ends_with_slash (s : string) : bool :=
  match rev (list_ascii_of_string s) with
  | c :: _ => Ascii.eqb c "/"%char
  | [] => false
  end.

(** [os.path.join(a, b)] for a relative [b]. *)
Definition path_join (a b : string) : string :=
  if String.eqb a "" then b
  else if ends_with_slash a then a +:+ b
  else a +:+ "/" +:+ b.

(** [open(path, "w")] for a path right under [dir]: the directory has to
    exist and the path must not name a directory; the file is created, or
    emptied when it exists. *)
Definition open_w (fs : filesystem) (dir path : string) : result filesystem :=
  match fs !! dir with
  | Some Dir =>
      match fs !! path with
      | Some Dir => Raise (IOError path)
      | _ => Ok (<[path := File EmptyFile]> fs)
      end
  | _ => Raise (IOError path)
  end.

(** [open(path, "r")] and what is read from it. *)
Definition open_r (fs : filesystem) (path : string) : result content :=
  match fs !! path with
  | Some (File c) => Ok c
  | _ => Raise (IOError path)
  end.

(** [json.load(config_file)] *)
Definition json_load_file (c : content) : result pyval :=
  match c with
  | EmptyFile => Raise JSONDecodeError
  | JsonFile j => Ok (json_load j)
  end.

(** ** Canonicalisation and the serializer *)

(** The dict [{"name": name, "dtype": dtype, "shape": shape}]. *)
Definition tensor_item (name dtype shape : pyval) : pyval :=
  PyDict (<["name" := name]> (<["dtype" := dtype]> (<["shape" := shape]> ∅))).

Section WithNumpy.

(** [np.dtype(v).name]: numpy is not part of the sources.  [None] stands
    for numpy's "data type not understood". *)
Variable np_dtype_name : pyval -> option string.

(** The expression [np.dtype(item["dtype"]).name]. *)
Definition canonicalize_dtype (v : pyval) : result string :=
  match np_dtype_name v with
  | Some name => Ok name
  | None => Raise (UnrecognizedDtype v)
  end.

(** The body of the loop of [canonicalize_tensor_spec]: the dict that is
    appended to [transformed]. *)
Definition canonicalize_item (item : pyval) : result pyval :=
  name ← getitem item "name";
  dtype ← getitem item "dtype";
  canonical ← canonicalize_dtype dtype;
  shape ← getitem item "shape";
  Ok (tensor_item name (PyStr canonical) shape).

Definition canonicalize_tensor_spec (spec : pyval) : result pyval :=
  items ← py_iter spec;
  transformed ← collect canonicalize_item items;
  Ok (PyList transformed).

(** The dict literal of [write_neuropod_config]. *)
Definition make_config (model_name platform input_spec output_spec : pyval) : pyval :=
  PyDict (<["name" := model_name]> (<["platform" := platform]>
         (<["input_spec" := input_spec]> (<["output_spec" := output_spec]> ∅)))).

(** What happens inside the [with] block, once the file is open. *)
Definition build_config (model_name platform input_spec output_spec : pyval) : result pyval :=
  cin ← canonicalize_tensor_spec input_spec;
  cout ← canonicalize_tensor_spec output_spec;
  let config := make_config model_name platform cin cout in
  _ ← validate_neuropod_config config;
  Ok config.

(** The file system after the call and how the call ends.  The file is
    opened first; an exception raised inside the [with] block closes it
    and leaves the call. *)
Definition write_neuropod_config (fs : filesystem) (neuropod_path : string)
    (model_name platform input_spec output_spec : pyval) : filesystem * result unit :=
  let path := path_join neuropod_path "config.json" in
  match open_w fs neuropod_path path with
  | Raise e => (fs, Raise e)
  | Ok fs1 =>
      match build_config model_name platform input_spec output_spec with
      | Raise e => (fs1, Raise e)
      | Ok config => (<[path := File (JsonFile (json_dump config))]> fs1, Ok tt)
      end
  end.

End WithNumpy.

Definition read_neuropod_config (fs : filesystem) (neuropod_path : string) : result pyval :=
  config_file ← open_r fs (path_join neuropod_path "config.json");
  config ← json_load_file config_file;
  _ ← validate_neuropod_config config;
  Ok config.

(** ** The name resolver *)

(** Modelled from the spec: the "numeric-type-name resolution facility" of
    the Canonicalizer is numpy's [np.dtype(v).name], which is not part of
    the sources.  The table holds the rows the specification and the
    docstring of [canonicalize_tensor_spec] speak of: a canonical name
    resolves to itself ("canonicalizing an already-canonical dtype name
    returns it unchanged") and ["double"] to ["float64"] ("converts double
    to float64").  It also holds one of the element types numpy knows
    beyond the allowed ones, ["float16"], under its own name.  A name
    outside the table is taken as not understood.  Every statement below
    that is not about these rows is proved for an arbitrary resolver. *)
Definition numpy_dtype_name (v : pyval) : option string :=
  match v with
  | PyStr s =>
      if existsb (String.eqb s) ALLOWED_DTYPES then Some s
      else if String.eqb s "double" then Some "float64"
      else if String.eqb s "float16" then Some "float16"
      else None
  | _ => None
  end.

(** ** Python equality *)





(** ** The rules of the validator, as the specification words them *)

(** "Each dimension in shape must be exactly one of: unbound marker,
    textual symbolic label, or a positive integer", a boolean being none
    of them. *)
Definition is_dimension (v : pyval) : bool :=
  match v with
  | PyNone => true
  | PyStr _ => true
  | PyInt z => (0 <? z)%Z
  | _ => false
  end.

Definition dtype_violations (dtype : pyval) : list error :=
  if py_in dtype ALLOWED_DTYPES then [] else [InvalidDtype dtype].

Definition name_violations (name : pyval) : list error :=
  if isinstance_basestring name then [] else [InvalidFieldType InSpec "name" name].

Definition dim_violations (dim : pyval) : list error :=
  if is_dimension dim then [] else [InvalidDimension dim].

Definition shape_violations (shape : pyval) : list error :=
  match shape with
  | PyList dims | PyTuple dims => flat_map dim_violations dims
  | _ => [InvalidFieldType InSpec "shape" shape]
  end.

(** Every rule an item breaks, in the order of the checks 1 to 4.  An item
    that lacks one of its three fields cannot be checked: the failed
    lookup is all it yields. *)
Definition item_violations (item : pyval) : list error :=
  match getitem item "name", getitem item "dtype", getitem item "shape" with
  | Raise e, _, _ => [e]
  | Ok _, Raise e, _ => [e]
  | Ok _, Ok _, Raise e => [e]
  | Ok name, Ok dtype, Ok shape =>
      dtype_violations dtype ++ name_violations name ++ shape_violations shape
  end.

(** Every rule a sequence of items breaks, item after item. *)
Definition all_violations (items : list pyval) : list error :=
  flat_map item_violations items.

(** Failing fast: the first violation, if there is one. *)
Definition first_violation (errors : list error) : result unit :=
  match errors with
  | [] => Ok tt
  | e :: _ => Raise e
  end.

(** ** The same functions over a store *)

(** Python lists and dicts are objects that variables and containers
    refer to and that can be changed in place.  To say what a call leaves
    untouched, the validators and [canonicalize_tensor_spec] are embedded
    a second time, over a heap of such objects. *)
Module Store.

Abbreviation loc := nat.

(** What a variable or a slot of a container holds: an immutable value, or
    a reference to a list or a dict. *)
Inductive value : Type :=
| VNone
| VBool (b : bool)
| VInt (z : Z)
| VFloat (f : spec_float)
| VStr (s : string)
| VTuple (items : list value)
| VRef (l : loc).

Inductive object : Type :=
| OList (items : list value)
| ODict (entries : gmap string value).

Abbreviation heap := (gmap loc object).

(** Exceptions by their Python class. *)
Inductive exn : Type :=
| ValueError (about : value)
| TypeError (about : value)
| KeyError (key : string).

Inductive outcome (A : Type) : Type :=
| Return (a : A)
| Throw (e : exn).
Arguments Return {A} a.
Arguments Throw {A} e.

(** A computation takes the heap and gives it back, whether it returns or
    throws. *)
Definition M (A : Type) : Type := heap -> heap * outcome A.

#[global] Instance M_ret : MRet M := fun A a h => (h, Return a).
#[global] Instance M_bind : MBind M := fun A B f c h =>
  match c h with
  | (h', Return a) => f a h'
  | (h', Throw e) => (h', Throw e)
  end.

Definition throw {A : Type} (e : exn) : M A := fun h => (h, Throw e).

(** A new object, at an address that is not in use. *)
Definition alloc (o : object) : M loc := fun h =>
  let l := fresh (dom h) in (<[l := o]> h, Return l).

Definition deref (l : loc) : M object := fun h =>
  match h !! l with
  | Some o => (h, Return o)
  | None => (h, Throw (TypeError (VRef l)))
  end.

(** [transformed.append(v)] *)
Definition append (l : loc) (v : value) : M unit := fun h =>
  match h !! l with
  | Some (OList items) => (<[l := OList (items ++ [v])]> h, Return tt)
  | _ => (h, Throw (TypeError (VRef l)))
  end.

Fixpoint for_each {A : Type} (body : A -> M unit) (l : list A) : M unit :=
  match l with
  | [] => mret tt
  | x :: rest => body x ≫= fun _ => for_each body rest
  end.

Definition getitem (v : value) (key : string) : M value :=
  match v with
  | VRef l =>
      o ← deref l;
      match o with
      | ODict d =>
          match d !! key with
          | Some x => mret x
          | None => throw (KeyError key)
          end
      | OList _ => throw (TypeError v)
      end
  | _ => throw (TypeError v)
  end.

Fixpoint chars (s : string) : list value :=
  match s with
  | EmptyString => []
  | String c rest => VStr (String c EmptyString) :: chars rest
  end.

(** The values a [for] loop over [v] goes through.  They are read when the
    loop starts: no loop of the module changes the sequence it runs
    over. *)
Definition iterate (v : value) : M (list value) :=
  match v with
  | VTuple items => mret items
  | VStr s => mret (chars s)
  | VRef l =>
      o ← deref l;
      match o with
      | OList items => mret items
      | ODict d => mret (VStr <$> (map_to_list d).*1)
      end
  | _ => throw (TypeError v)
  end.

Definition isinstance_basestring (v : value) : bool :=
  match v with VStr _ => true | _ => false end.

Definition isinstance_bool (v : value) : bool :=
  match v with VBool _ => true | _ => false end.

Definition isinstance_int (v : value) : bool :=
  match v with VInt _ | VBool _ => true | _ => false end.

Definition is_None (v : value) : bool :=
  match v with VNone => true | _ => false end.

Definition isinstance_list_tuple (v : value) : M bool :=
  match v with
  | VTuple _ => mret true
  | VRef l =>
      o ← deref l;
      mret (match o with OList _ => true | ODict _ => false end)
  | _ => mret false
  end.

Definition gt_zero (v : value) : bool :=
  match v with
  | VNone => false
  | VBool b => b
  | VInt z => (0 <? z)%Z
  | VFloat f => SFltb (S754_zero false) f
  | VStr _ | VTuple _ | VRef _ => true
  end.

Definition py_in (v : value) (names : list string) : bool :=
  match v with
  | VStr s => existsb (String.eqb s) names
  | _ => false
  end.

Definition validate_dim (dim : value) : M unit :=
  let is_uint := negb (isinstance_bool dim) && isinstance_int dim && gt_zero dim in
  if is_None dim || is_uint || isinstance_basestring dim
  then mret tt
  else throw (ValueError dim).

Definition validate_item (item : value) : M unit :=
  name ← getitem item "name";
  dtype ← getitem item "dtype";
  shape ← getitem item "shape";
  if negb (py_in dtype ALLOWED_DTYPES) then throw (ValueError dtype)
  else if negb (isinstance_basestring name) then throw (ValueError name)
  else
    is_seq ← isinstance_list_tuple shape;
    if negb is_seq then throw (ValueError shape)
    else dims ← iterate shape; for_each validate_dim dims.

Definition validate_tensor_spec (spec : value) : M unit :=
  items ← iterate spec;
  for_each validate_item items.

Definition validate_neuropod_config (config : value) : M unit :=
  name ← getitem config "name";
  platform ← getitem config "platform";
  if negb (isinstance_basestring name) then throw (ValueError name)
  else if negb (isinstance_basestring platform) then throw (ValueError platform)
  else
    input_spec ← getitem config "input_spec";
    _ ← validate_tensor_spec input_spec;
    output_spec ← getitem config "output_spec";
    validate_tensor_spec output_spec.

(** The dict object [{"name": name, "dtype": dtype, "shape": shape}]. *)
Definition tensor_item (name dtype shape : value) : object :=
  ODict (<["name" := name]> (<["dtype" := dtype]> (<["shape" := shape]> ∅))).

Section WithNumpy.

(** [np.dtype(v).name], which may look at the objects [v] refers to. *)
Variable np_dtype_name : heap -> value -> option string.

Definition canonicalize_dtype (v : value) : M string := fun h =>
  match np_dtype_name h v with
  | Some name => (h, Return name)
  | None => (h, Throw (TypeError v))
  end.

(** The body of the loop: a new dict, appended to [transformed]. *)
Definition canonicalize_step (transformed : loc) (item : value) : M unit :=
  name ← getitem item "name";
  dtype ← getitem item "dtype";
  canonical ← canonicalize_dtype dtype;
  shape ← getitem item "shape";
  d ← alloc (tensor_item name (VStr canonical) shape);
  append transformed (VRef d).

Definition canonicalize_tensor_spec (spec : value) : M value :=
  transformed ← alloc (OList []);
  items ← iterate spec;
  _ ← for_each (canonicalize_step transformed) items;
  mret (VRef transformed).

End WithNumpy.

(** The resolver [numpy_dtype_name] on a stored value: a string is looked
    up in its table. *)
Definition numpy_dtype_name (h : heap) (v : value) : option string :=
  match v with
  | VStr s => numpy_dtype_name (PyStr s)
  | _ => None
  end.

(** In the heap [h], [item] is a dict that holds these three fields. *)
Definition item_fields (h : heap) (item name dtype shape : value) : Prop :=
  exists l entries,
    item = VRef l /\ h !! l = Some (ODict entries) /\
    entries !! "name" = Some name /\
    entries !! "dtype" = Some dtype /\
    entries !! "shape" = Some shape.

(** [out] is a dict made during the call, with the name and the shape of
    [item] and a string for dtype. *)
Definition transformed_from (h h' : heap) (item out : value) : Prop :=
  exists d name dtype shape canonical,
    out = VRef d /\ h !! d = None /\
    item_fields h' item name dtype shape /\
    h' !! d = Some (tensor_item name (VStr canonical) shape).

(** A computation that gives back the heap it was given. *)
Definition read_only {A : Type} (c : M A) : Prop :=
  forall h, (c h).1 = h.

End Store.

(** ** Predicates used in the statements *)

(** An item whose three fields can be read, and what they hold. *)
Definition has_fields (item name dtype shape : pyval) : Prop :=
  getitem item "name" = Ok name /\
  getitem item "dtype" = Ok dtype /\
  getitem item "shape" = Ok shape.

(** An item of a canonicalised sequence: the dict the loop builds from an
    item of the input. *)
Definition canonical_of (np_dtype_name : pyval -> option string) (item out : pyval) : Prop :=
  exists name dtype shape canonical,
    has_fields item name dtype shape /\
    np_dtype_name dtype = Some canonical /\
    out = tensor_item name (PyStr canonical) shape.


(** ** How the two embeddings are related *)

(** The value a stored value stands for: references are followed into the
    heap.  A structure that refers back to itself stands for no value. *)
Inductive denotes (h : Store.heap) : Store.value -> pyval -> Prop :=
| denotes_None : denotes h Store.VNone PyNone
| denotes_bool b : denotes h (Store.VBool b) (PyBool b)
| denotes_int z : denotes h (Store.VInt z) (PyInt z)
| denotes_float f : denotes h (Store.VFloat f) (PyFloat f)
| denotes_str s : denotes h (Store.VStr s) (PyStr s)
| denotes_tuple vs ps :
    Forall2 (denotes h) vs ps -> denotes h (Store.VTuple vs) (PyTuple ps)
| denotes_list l vs ps :
    h !! l = Some (Store.OList vs) ->
    Forall2 (denotes h) vs ps -> denotes h (Store.VRef l) (PyList ps)
| denotes_dict l m pm :
    h !! l = Some (Store.ODict m) ->
    (forall k, option_Forall2 (denotes h) (m !! k) (pm !! k)) ->
    denotes h (Store.VRef l) (PyDict pm).

(** The Python class of an exception. *)
Inductive exception_class := ClsValueError | ClsTypeError | ClsKeyError | ClsIOError.

Definition error_class (e : error) : exception_class :=
  match e with
  | InvalidDtype _ | InvalidFieldType _ _ _ | InvalidDimension _ | JSONDecodeError =>
      ClsValueError
  | UnrecognizedDtype _ | NotSubscriptable _ | NotIterable _ => ClsTypeError
  | KeyError _ => ClsKeyError
  | IOError _ => ClsIOError
  end.

Definition exn_class (e : Store.exn) : exception_class :=
  match e with
  | Store.ValueError _ => ClsValueError
  | Store.TypeError _ => ClsTypeError
  | Store.KeyError _ => ClsKeyError
  end.

(** Two ends of a call that match: both return, with related results, or
    both raise, an exception of the same class. *)
Definition same_outcome {A B : Type} (R : A -> B -> Prop)
    (r : Store.outcome A) (p : result B) : Prop :=
  match r, p with
  | Store.Return a, Ok b => R a b
  | Store.Throw e, Raise e' => exn_class e = error_class e'
  | _, _ => False
  end.

(** Both return or both raise the same class of exception. *)
Definition same_ending {A B : Type} : Store.outcome A -> result B -> Prop :=
  same_outcome (fun _ _ => True).

(** Every object of [h] is in [h'] as it was. *)
Definition unchanged (h h' : Store.heap) : Prop :=
  forall l o, h !! l = Some o -> h' !! l = Some o.

(** The resolver over the store and the resolver over values give the
    same name for a stored value and the value it stands for. *)
Definition resolvers_agree (nps : Store.heap -> Store.value -> option string)
    (np : pyval -> option string) : Prop :=
  forall h v p, denotes h v p -> nps h v = np p.

(** [out] refers to a dict of the loop of [canonicalize_tensor_spec]
    whose name and shape stand for those of [pout]. *)
Definition built (h hk : Store.heap) (t : Store.loc) (out : Store.value) (pout : pyval) : Prop :=
  exists d name shape canonical pname pshape,
    out = Store.VRef d /\ d <> t /\
    hk !! d = Some (Store.tensor_item name (Store.VStr canonical) shape) /\
    denotes h name pname /\ denotes h shape pshape /\
    pout = tensor_item pname (PyStr canonical) pshape.

(** ** Items that pass *)

(** An item the Tensor Spec Validator lets through: a dict with a string
    for name, an allowed name for dtype, and for shape a list or a tuple of
    dimensions that each pass the test of the inner loop. *)
Definition valid_item (item : pyval) : Prop :=
  exists name dtype shape dims,
    has_fields item (PyStr name) (PyStr dtype) shape /\
    In dtype ALLOWED_DTYPES /\
    (shape = PyList dims \/ shape = PyTuple dims) /\
    Forall (fun dim => validate_dim dim = Ok tt) dims.


(** A resolver under which the name it gives resolves to itself. *)
Definition idempotent_resolver (np_dtype_name : pyval -> option string) : Prop :=
  forall v name, np_dtype_name v = Some name -> np_dtype_name (PyStr name) = Some name.

(** A resolver that maps every allowed name to itself. *)
Definition fixes_allowed_names (np_dtype_name : pyval -> option string) : Prop :=
  forall d, In d ALLOWED_DTYPES -> np_dtype_name (PyStr d) = Some d.

(** ** Items that canonicalise *)

(** An item [canonicalize_tensor_spec] can turn into a dict: it has the
    three fields and the resolver knows its dtype. *)
Definition resolvable_item (np_dtype_name : pyval -> option string) (item : pyval) : Prop :=
  exists name dtype shape canonical,
    has_fields item name dtype shape /\ np_dtype_name dtype = Some canonical.

(** The same over the store: the item is a dict of the heap with the three
    fields, and the resolver knows its dtype in every heap that keeps the
    objects of [h] as they are. *)
Definition stored_resolvable_item
    (np_dtype_name : Store.heap -> Store.value -> option string)
    (h : Store.heap) (item : Store.value) : Prop :=
  exists name dtype shape,
    Store.item_fields h item name dtype shape /\
    forall hk, unchanged h hk -> is_Some (np_dtype_name hk dtype).

(** ** Dimensions and items, spelled out *)

(** A dimension as line 46 to 48 of the source take it: [None], a string,
    or an integer above zero ([PyInt] holds no boolean). *)
Definition accepted_dimension (dim : pyval) : Prop :=
  dim = PyNone \/ (exists s, dim = PyStr s) \/ (exists z, dim = PyInt z /\ (0 < z)%Z).

(** An item with every rule of the validator written out: a dict whose
    name is a string, whose dtype is one of the allowed names, and whose
    shape is a list or a tuple of accepted dimensions. *)
Definition well_formed_item (item : pyval) : Prop :=
  exists d name dtype dims,
    item = PyDict d /\
    d !! "name" = Some (PyStr name) /\
    d !! "dtype" = Some (PyStr dtype) /\
    In dtype ALLOWED_DTYPES /\
    (d !! "shape" = Some (PyList dims) \/ d !! "shape" = Some (PyTuple dims)) /\
    Forall accepted_dimension dims.

(** * Properties *)

(** ** Induction on Python values *)

Lemma py_size_elem (x : pyval) (l : list pyval) :
  x ∈ l -> (py_size x <= foldr (fun x acc => py_size x + acc) 0 l)%nat.
Proof.
  induction 1 as [x l | x y l _ IH]; simpl; lia.
Qed.

Lemma py_size_entry (d : gmap string pyval) (k : string) (x : pyval) :
  d !! k = Some x ->
  (py_size x <= map_fold (fun _ x acc => py_size x + acc) 0 d)%nat.
Proof.
  intros Hk.
  rewrite <- (insert_delete_id d k x Hk).
  rewrite map_fold_insert_L.
  - lia.
  - intros; lia.
  - apply lookup_delete_eq.
Qed.

(** Induction with the hypothesis for every element of a list or tuple and
    every entry of a dict. *)
Lemma pyval_ind_deep (P : pyval -> Prop) :
  P PyNone ->
  (forall b, P (PyBool b)) ->
  (forall z, P (PyInt z)) ->
  (forall f, P (PyFloat f)) ->
  (forall s, P (PyStr s)) ->
  (forall l, Forall P l -> P (PyList l)) ->
  (forall l, Forall P l -> P (PyTuple l)) ->
  (forall d, map_Forall (fun _ => P) d -> P (PyDict d)) ->
  forall v, P v.
Proof.
  intros HNone HBool HInt HFloat HStr HList HTuple HDict v.
  remember (py_size v) as n eqn:Hn.
  revert v Hn.
  induction n as [n IH] using lt_wf_ind.
  intros [ | b | z | f | s | l | l | d] Hn; auto.
  - apply HList, Forall_forall. intros x Hx.
    apply (IH (py_size x)); [ | reflexivity].
    pose proof (py_size_elem x l Hx). simpl in Hn. lia.
  - apply HTuple, Forall_forall. intros x Hx.
    apply (IH (py_size x)); [ | reflexivity].
    pose proof (py_size_elem x l Hx). simpl in Hn. lia.
  - apply HDict. intros k x Hk.
    apply (IH (py_size x)); [ | reflexivity].
    pose proof (py_size_entry d k x Hk). simpl in Hn. lia.
Qed.

(** ** JSON *)

(** Loading what was dumped gives the value back with its tuples turned
    into lists. *)
Lemma json_load_dump (v : pyval) : json_load (json_dump v) = tuples_to_lists v.
Proof.
  induction v as [ | b | z | f | s | l IH | l IH | d IH] using pyval_ind_deep;
    simpl; try reflexivity.
  - f_equal. rewrite map_map. apply map_ext_in. intros x Hx.
    rewrite Forall_forall in IH. apply IH. by apply list_elem_of_In.
  - f_equal. rewrite map_map. apply map_ext_in. intros x Hx.
    rewrite Forall_forall in IH. apply IH. by apply list_elem_of_In.
  - f_equal. rewrite <- map_fmap_compose. apply map_fmap_ext.
    intros k x Hk. exact (IH k x Hk).
Qed.

(** ** The checks of the validator *)

Lemma existsb_eqb_In (s : string) (names : list string) :
  existsb (String.eqb s) names = true <-> In s names.
Proof.
  rewrite existsb_exists. split.
  - intros (t & Ht & Heq). apply String.eqb_eq in Heq. by subst.
  - intros H. exists s. split; [done | apply String.eqb_refl].
Qed.

Lemma py_in_true (v : pyval) (names : list string) :
  py_in v names = true <-> exists s, v = PyStr s /\ In s names.
Proof.
  destruct v; simpl; try (split; [discriminate | intros (s' & [=] & _)]).
  rewrite existsb_eqb_In. split.
  - intros H. eauto.
  - intros (s' & [= ->] & H). done.
Qed.

(** The test of the inner loop is the rule of the data model. *)
Lemma validate_dim_is_dimension (dim : pyval) :
  validate_dim dim = first_violation (dim_violations dim).
Proof.
  unfold validate_dim, dim_violations.
  destruct dim as [ | b | z | f | s | l | l | d]; simpl; try reflexivity.
  destruct (0 <? z)%Z; reflexivity.
Qed.

(** A loop that stops at the first exception raises the first violation
    of all those its body would find. *)
Lemma for_each_first_violation {A : Type} (body : A -> result unit)
    (violations : A -> list error) :
  (forall x, body x = first_violation (violations x)) ->
  forall l, for_each body l = first_violation (flat_map violations l).
Proof.
  intros Hbody l. induction l as [ | x l IH]; simpl; [reflexivity | ].
  rewrite Hbody. destruct (violations x) as [ | e es]; simpl; [exact IH | reflexivity].
Qed.

Lemma for_each_dims (dims : list pyval) :
  for_each validate_dim dims = first_violation (flat_map dim_violations dims).
Proof. apply for_each_first_violation, validate_dim_is_dimension. Qed.

Lemma validate_item_violations (item : pyval) :
  validate_item item = first_violation (item_violations item).
Proof.
  unfold validate_item, item_violations.
  destruct (getitem item "name") as [name | e]; simpl; [ | reflexivity].
  destruct (getitem item "dtype") as [dtype | e]; simpl; [ | reflexivity].
  destruct (getitem item "shape") as [shape | e]; simpl; [ | reflexivity].
  unfold dtype_violations, name_violations.
  destruct (py_in dtype ALLOWED_DTYPES); simpl; [ | reflexivity].
  destruct (isinstance_basestring name); simpl; [ | reflexivity].
  destruct shape; simpl; try reflexivity; apply for_each_dims.
Qed.

Lemma validate_items (items : list pyval) :
  for_each validate_item items = first_violation (all_violations items).
Proof. apply for_each_first_violation, validate_item_violations. Qed.

(** The three lookups of an item that has its fields. *)
Lemma getitem_tensor_item (name dtype shape : pyval) :
  getitem (tensor_item name dtype shape) "name" = Ok name /\
  getitem (tensor_item name dtype shape) "dtype" = Ok dtype /\
  getitem (tensor_item name dtype shape) "shape" = Ok shape.
Proof. repeat split. Qed.

Lemma item_violations_tensor_item (name dtype shape : pyval) :
  item_violations (tensor_item name dtype shape) =
  (dtype_violations dtype ++ name_violations name ++ shape_violations shape)%list.
Proof. reflexivity. Qed.

Lemma validate_tensor_spec_list (items : list pyval) :
  validate_tensor_spec (PyList items) = first_violation (all_violations items).
Proof. apply validate_items. Qed.

Lemma validate_tensor_spec_tuple (items : list pyval) :
  validate_tensor_spec (PyTuple items) = first_violation (all_violations items).
Proof. apply validate_items. Qed.

Lemma all_violations_app (l1 l2 : list pyval) :
  all_violations (l1 ++ l2) = (all_violations l1 ++ all_violations l2)%list.
Proof. apply flat_map_app. Qed.

Lemma first_violation_Ok (errors : list error) :
  first_violation errors = Ok tt <-> errors = [].
Proof. destruct errors; simpl; split; congruence. Qed.

Lemma item_violations_fields (item name dtype shape : pyval) :
  has_fields item name dtype shape ->
  item_violations item =
  (dtype_violations dtype ++ name_violations name ++ shape_violations shape)%list.
Proof. intros (Hn & Hd & Hs). unfold item_violations. by rewrite Hn, Hd, Hs. Qed.

Lemma dtype_violations_nil (dtype : pyval) :
  dtype_violations dtype = [] <-> exists s, dtype = PyStr s /\ In s ALLOWED_DTYPES.
Proof.
  rewrite <- py_in_true. unfold dtype_violations.
  destruct (py_in dtype ALLOWED_DTYPES); split; congruence.
Qed.

Lemma is_dimension_true (dim : pyval) :
  is_dimension dim = true <->
  dim = PyNone \/ (exists s, dim = PyStr s) \/ (exists z, dim = PyInt z /\ (0 < z)%Z).
Proof.
  destruct dim as [ | b | z | f | s | l | l | d]; simpl.
  all: try (split; [discriminate | intros [ [=] | [ (? & [=]) | (? & [=] & _) ] ] ]).
  - split; auto.
  - rewrite Z.ltb_lt. split.
    + intros H. right; right. eauto.
    + intros [ [=] | [ (? & [=]) | (? & [= <-] & H) ] ]. done.
  - split; [ | done]. intros _. right; left. eauto.
Qed.

Lemma first_dim_violation (dims : list pyval) :
  first_violation (flat_map dim_violations dims) =
  match find (fun dim => negb (is_dimension dim)) dims with
  | Some dim => Raise (InvalidDimension dim)
  | None => Ok tt
  end.
Proof.
  induction dims as [ | dim dims IH]; simpl; [reflexivity | ].
  unfold dim_violations at 1. destruct (is_dimension dim); simpl; [exact IH | reflexivity].
Qed.

(** ** Claims about the Tensor Spec Validator *)

(** C6.  A dimension is accepted exactly when it is [None], a string, or
    an integer above zero that is not a boolean, and a rejected one raises
    [InvalidDimension] with that value.  For an item whose dtype and name
    pass, the validator accepts the shape when every dimension is accepted
    and otherwise raises for the first that is not.  The shape
    [[None, "batch", 5]] passes; [True], [0], [-3] and [1.5] are rejected,
    [True] although it is an instance of [int] and above zero: the test
    for [bool] comes first. *)
Theorem dimension_acceptance :
  (forall dim,
     validate_dim dim = Ok tt <->
     dim = PyNone \/ (exists s, dim = PyStr s) \/ (exists z, dim = PyInt z /\ (0 < z)%Z))
  /\ (forall dim, validate_dim dim = Ok tt \/ validate_dim dim = Raise (InvalidDimension dim))
  /\ (forall name dtype dims,
        In dtype ALLOWED_DTYPES ->
        let outcome :=
          match find (fun dim => negb (is_dimension dim)) dims with
          | Some dim => Raise (InvalidDimension dim)
          | None => Ok tt
          end in
        validate_tensor_spec (PyList [tensor_item (PyStr name) (PyStr dtype) (PyList dims)])
          = outcome /\
        validate_tensor_spec (PyList [tensor_item (PyStr name) (PyStr dtype) (PyTuple dims)])
          = outcome)
  /\ validate_tensor_spec
       (PyList [tensor_item (PyStr "x") (PyStr "float32")
                            (PyList [PyNone; PyStr "batch"; PyInt 5])]) = Ok tt
  /\ (isinstance_int (PyBool true) = true /\ gt_zero (PyBool true) = true /\
      validate_dim (PyBool true) = Raise (InvalidDimension (PyBool true)))
  /\ validate_dim (PyInt 0) = Raise (InvalidDimension (PyInt 0))
  /\ validate_dim (PyInt (-3)) = Raise (InvalidDimension (PyInt (-3)))
  /\ validate_dim (PyFloat (S754_finite false 3 (-1)))
     = Raise (InvalidDimension (PyFloat (S754_finite false 3 (-1)))).
Proof.
  split; [ | split; [ | split; [ | repeat split] ] ].
  - intros dim. rewrite validate_dim_is_dimension, first_violation_Ok.
    rewrite <- is_dimension_true. unfold dim_violations.
    destruct (is_dimension dim); split; congruence.
  - intros dim. rewrite validate_dim_is_dimension. unfold dim_violations.
    destruct (is_dimension dim); simpl; auto.
  - intros name dtype dims Hin outcome.
    assert (Hd : dtype_violations (PyStr dtype) = []).
    { apply dtype_violations_nil. eauto. }
    rewrite !validate_tensor_spec_list. unfold all_violations. simpl.
    rewrite !item_violations_tensor_item, Hd. simpl. rewrite !app_nil_r.
    split; apply first_dim_violation.
Qed.

(** A run of [dimension_acceptance] on a shape of the docstring's kind. *)
Lemma dimension_acceptance_witness :
  validate_dim (PyInt 5) = Ok tt /\
  validate_tensor_spec
    (PyList [tensor_item (PyStr "x") (PyStr "int64") (PyTuple [PyNone; PyInt 0])])
  = Raise (InvalidDimension (PyInt 0)).
Proof.
  destruct dimension_acceptance as (Hdim & _ & Hshape & _).
  split.
  - apply Hdim. right; right. exists 5%Z. split; [reflexivity | lia].
  - apply (Hshape "x" "int64" [PyNone; PyInt 0]). simpl. tauto.
Defined.

(** C7.  The validator raises the first of all the violations of the
    sequence, counted item after item and, within an item, dtype, then
    name, then the type of shape, then the dimensions in their order;
    nothing else of the list is reported.  An item with a bad dtype and a
    bad shape raises the dtype error. *)
Theorem validate_tensor_spec_fails_fast :
  (forall items,
     validate_tensor_spec (PyList items) = first_violation (all_violations items) /\
     validate_tensor_spec (PyTuple items) = first_violation (all_violations items))
  /\ (forall name dtype shape,
        all_violations [tensor_item name dtype shape] =
        (dtype_violations dtype ++ name_violations name ++ shape_violations shape)%list)
  /\ (let bad := tensor_item (PyStr "x") (PyStr "float16") (PyInt 5) in
      all_violations [bad] =
        [InvalidDtype (PyStr "float16"); InvalidFieldType InSpec "shape" (PyInt 5)] /\
      validate_tensor_spec (PyList [bad]) = Raise (InvalidDtype (PyStr "float16"))).
Proof.
  split; [ | split].
  - intros items. split; apply validate_items.
  - intros name dtype shape. unfold all_violations. simpl.
    by rewrite item_violations_tensor_item, app_nil_r.
  - split; reflexivity.
Qed.

Lemma ALLOWED_DTYPES_NoDup : NoDup ALLOWED_DTYPES.
Proof.
  unfold ALLOWED_DTYPES.
  repeat (apply NoDup_cons; split;
          [ intros H; repeat (apply elem_of_cons in H as [H | H]; [discriminate | ]);
            by apply elem_of_nil in H | ]).
  apply NoDup_nil. done.
Qed.

Lemma name_shape_never_dtype (name shape dtype : pyval) :
  first_violation (name_violations name ++ shape_violations shape)
  <> Raise (InvalidDtype dtype).
Proof.
  unfold name_violations.
  destruct (isinstance_basestring name); simpl; [ | discriminate].
  destruct shape; simpl; try discriminate;
    rewrite first_dim_violation; destruct (find _ _); discriminate.
Qed.

Lemma validate_item_dtype (item name dtype shape : pyval) :
  has_fields item name dtype shape ->
  validate_item item = Raise (InvalidDtype dtype) <->
  ~ (exists s, dtype = PyStr s /\ In s ALLOWED_DTYPES).
Proof.
  intros Hf. rewrite validate_item_violations, (item_violations_fields _ _ _ _ Hf).
  rewrite <- dtype_violations_nil. unfold dtype_violations.
  destruct (py_in dtype ALLOWED_DTYPES); simpl.
  - split; [ | congruence]. intros H. by apply name_shape_never_dtype in H.
  - split; [discriminate | reflexivity].
Qed.

Lemma plain_item_accepted (s : string) :
  validate_tensor_spec (PyList [tensor_item (PyStr "x") (PyStr s) (PyList [])]) = Ok tt
  <-> In s ALLOWED_DTYPES.
Proof.
  rewrite validate_tensor_spec_list. unfold all_violations. simpl.
  rewrite item_violations_tensor_item. simpl. rewrite !app_nil_r.
  rewrite first_violation_Ok, dtype_violations_nil. split.
  - intros (s' & [= <-] & H). done.
  - eauto.
Qed.

(** C8, amended.  The allowed names are eleven.  An item with its three fields
    raises [InvalidDtype] exactly when its dtype is not one of them; a
    sequence that holds such an item is rejected, with [InvalidDtype] for
    that item when the items before it pass; ["float16"] is such a
    dtype. *)
Theorem dtype_membership :
  (length ALLOWED_DTYPES = 11%nat /\ NoDup ALLOWED_DTYPES)
  /\ (forall item name dtype shape,
        has_fields item name dtype shape ->
        validate_item item = Raise (InvalidDtype dtype) <->
        ~ (exists s, dtype = PyStr s /\ In s ALLOWED_DTYPES))
  /\ (forall before item after name dtype shape,
        has_fields item name dtype shape ->
        ~ (exists s, dtype = PyStr s /\ In s ALLOWED_DTYPES) ->
        validate_tensor_spec (PyList (before ++ item :: after)) <> Ok tt /\
        (validate_tensor_spec (PyList before) = Ok tt ->
         validate_tensor_spec (PyList (before ++ item :: after))
         = Raise (InvalidDtype dtype)))
  /\ validate_tensor_spec
       (PyList [tensor_item (PyStr "x") (PyStr "float16") (PyList [])])
     = Raise (InvalidDtype (PyStr "float16")).
Proof.
  split; [ | split; [ | split] ].
  - split; [reflexivity | apply ALLOWED_DTYPES_NoDup].
  - apply validate_item_dtype.
  - intros before item after name dtype shape Hf Hbad.
    apply (validate_item_dtype _ _ _ _ Hf) in Hbad.
    rewrite validate_item_violations in Hbad.
    rewrite !validate_tensor_spec_list, all_violations_app.
    change (all_violations (item :: after))
      with (item_violations item ++ all_violations after)%list.
    destruct (item_violations item) as [ | e es]; [discriminate | ].
    simpl in Hbad. injection Hbad as ->.
    split.
    + rewrite first_violation_Ok. intros H. apply app_eq_nil in H as [_ [=] ].
    + rewrite first_violation_Ok. intros ->. reflexivity.
  - reflexivity.
Qed.

(** A run of [dtype_membership] on an item with a dtype numpy knows and
    the validator does not allow. *)
Lemma dtype_membership_witness :
  validate_tensor_spec
    (PyList ([tensor_item (PyStr "a") (PyStr "int8") (PyList [])] ++
             tensor_item (PyStr "b") (PyStr "float16") (PyList []) ::
             [tensor_item (PyStr "c") (PyInt 0) (PyInt 0)]))
  = Raise (InvalidDtype (PyStr "float16")).
Proof.
  destruct dtype_membership as (_ & _ & Hseq & _).
  apply (Hseq _ _ _ (PyStr "b") (PyStr "float16") (PyList [])).
  - apply getitem_tensor_item.
  - intros (s & [= <-] & H). simpl in H.
    repeat (destruct H as [H | H]; [discriminate | ]). exact H.
  - reflexivity.
Defined.

(** Against C8 as it is worded: no set of twelve names is the set of the
    dtypes the validator lets through. *)
Lemma no_twelve_allowed_dtypes :
  ~ exists names : list string,
      NoDup names /\ length names = 12%nat /\
      forall s, In s names <->
                validate_tensor_spec
                  (PyList [tensor_item (PyStr "x") (PyStr s) (PyList [])]) = Ok tt.
Proof.
  intros (names & Hnd & Hlen & Hiff).
  assert (Hperm : names ≡ₚ ALLOWED_DTYPES).
  { apply NoDup_Permutation; [done | apply ALLOWED_DTYPES_NoDup | ].
    intros s. rewrite !list_elem_of_In, Hiff. apply plain_item_accepted. }
  apply Permutation_length in Hperm. rewrite Hlen in Hperm. discriminate.
Qed.

(** ** Claims about the Config Validator *)

Lemma validate_neuropod_config_strings (config : pyval) (name platform : string) :
  getitem config "name" = Ok (PyStr name) ->
  getitem config "platform" = Ok (PyStr platform) ->
  validate_neuropod_config config =
  (input_spec ← getitem config "input_spec";
   _ ← validate_tensor_spec input_spec;
   output_spec ← getitem config "output_spec";
   validate_tensor_spec output_spec).
Proof. intros Hn Hp. unfold validate_neuropod_config. by rewrite Hn, Hp. Qed.

Lemma validate_config_bad_name (config name platform : pyval) :
  getitem config "name" = Ok name ->
  getitem config "platform" = Ok platform ->
  isinstance_basestring name = false ->
  validate_neuropod_config config = Raise (InvalidFieldType InConfig "name" name).
Proof.
  intros Hn Hp Hstr. unfold validate_neuropod_config. rewrite Hn, Hp. simpl.
  by rewrite Hstr.
Qed.

Lemma getitem_make_config (name platform input_spec output_spec : pyval) :
  let config := make_config name platform input_spec output_spec in
  getitem config "name" = Ok name /\
  getitem config "platform" = Ok platform /\
  getitem config "input_spec" = Ok input_spec /\
  getitem config "output_spec" = Ok output_spec.
Proof. repeat split. Qed.

Lemma validate_make_config (name platform : string) (input_spec output_spec : pyval) :
  validate_neuropod_config (make_config (PyStr name) (PyStr platform) input_spec output_spec)
  = (_ ← validate_tensor_spec input_spec; validate_tensor_spec output_spec).
Proof. reflexivity. Qed.

(** C9.  A sequence without items passes the Tensor Spec Validator, and a
    config with a string name, a string platform and two such sequences
    passes the Config Validator. *)
Theorem empty_spec_is_valid :
  validate_tensor_spec (PyList []) = Ok tt
  /\ validate_tensor_spec (PyTuple []) = Ok tt
  /\ (forall name platform : string,
        validate_neuropod_config
          (make_config (PyStr name) (PyStr platform) (PyList []) (PyList [])) = Ok tt).
Proof. repeat split. Qed.

(** C5, amended.  For a config that has a name and a platform, the Config
    Validator looks at the two before it reads either spec sequence: a
    name that is not a string raises the field-type error for ["name"], a
    platform that is not a string (under a string name) the one for
    ["platform"], whatever the spec sequences are and even when they are
    missing; a config that is accepted has a string for both.  Strings
    are not tested for being empty: under two strings the outcome is that
    of the two spec sequences alone. *)
Theorem config_validator_requires_strings (config name platform : pyval) :
  getitem config "name" = Ok name ->
  getitem config "platform" = Ok platform ->
  (isinstance_basestring name = false ->
   validate_neuropod_config config = Raise (InvalidFieldType InConfig "name" name))
  /\ (isinstance_basestring name = true ->
      isinstance_basestring platform = false ->
      validate_neuropod_config config
      = Raise (InvalidFieldType InConfig "platform" platform))
  /\ (validate_neuropod_config config = Ok tt ->
      exists s t, name = PyStr s /\ platform = PyStr t)
  /\ (forall s t,
        name = PyStr s -> platform = PyStr t ->
        validate_neuropod_config config =
        (input_spec ← getitem config "input_spec";
         _ ← validate_tensor_spec input_spec;
         output_spec ← getitem config "output_spec";
         validate_tensor_spec output_spec)).
Proof.
  intros Hn Hp. unfold validate_neuropod_config. rewrite Hn, Hp. simpl.
  repeat split.
  - by intros ->.
  - by intros -> ->.
  - destruct name; simpl; try discriminate.
    destruct platform; simpl; try discriminate. eauto.
  - by intros s t -> ->.
Qed.

(** A run of [config_validator_requires_strings]: the name 123 is refused
    although the config has no spec sequence at all. *)
Lemma config_validator_requires_strings_witness :
  validate_neuropod_config
    (PyDict (<["name" := PyInt 123]> (<["platform" := PyStr "python"]> ∅)))
  = Raise (InvalidFieldType InConfig "name" (PyInt 123)).
Proof.
  apply (config_validator_requires_strings _ (PyInt 123) (PyStr "python"));
    reflexivity.
Defined.

(** Against C5 as it is worded: the empty string is accepted as a name and
    as a platform. *)
Lemma empty_name_and_platform_accepted :
  validate_neuropod_config (make_config (PyStr "") (PyStr "") (PyList []) (PyList []))
  = Ok tt
  /\ ~ (forall config s t,
          getitem config "name" = Ok (PyStr s) ->
          getitem config "platform" = Ok (PyStr t) ->
          validate_neuropod_config config = Ok tt ->
          s <> "" /\ t <> "").
Proof.
  split; [reflexivity | ].
  intros H.
  destruct (H (make_config (PyStr "") (PyStr "") (PyList []) (PyList [])) "" "")
    as [Hs _]; try reflexivity.
  by apply Hs.
Qed.

(** ** Canonicalisation *)

Lemma collect_Ok {A B : Type} (f : A -> result B) (l : list A) (ys : list B) :
  collect f l = Ok ys <-> Forall2 (fun x y => f x = Ok y) l ys.
Proof.
  revert ys. induction l as [ | x l IH]; intros ys; simpl.
  - split.
    + intros [= <-]. constructor.
    + intros H. by inversion H.
  - destruct (f x) as [y | e] eqn:Hfx; simpl.
    + destruct (collect f l) as [ys' | e] eqn:Hl; simpl.
      * split.
        -- intros [= <-]. constructor; [done | ]. by apply IH.
        -- intros H. inversion H as [ | ? y' ? ys'' Hy Hrest]; subst.
           apply IH in Hrest. congruence.
      * split; [discriminate | ].
        intros H. inversion H as [ | ? y' ? ys'' Hy Hrest]; subst.
        apply IH in Hrest. discriminate.
    + split; [discriminate | ].
      intros H. inversion H; subst. congruence.
Qed.

Lemma all_violations_nil (items : list pyval) :
  all_violations items = [] <-> Forall (fun item => item_violations item = []) items.
Proof.
  unfold all_violations. induction items as [ | item items IH]; simpl.
  - split; [constructor | done].
  - split.
    + intros H. apply app_eq_nil in H as [H1 H2]. constructor; [done | by apply IH].
    + intros H. inversion H as [ | ? ? H1 H2]; subst. rewrite H1. simpl. by apply IH.
Qed.

Section Canonicalisation.

Variable np_dtype_name : pyval -> option string.

Lemma canonicalize_item_Ok (item out : pyval) :
  canonicalize_item np_dtype_name item = Ok out <-> canonical_of np_dtype_name item out.
Proof.
  unfold canonicalize_item, canonical_of, has_fields, canonicalize_dtype. split.
  - destruct (getitem item "name") as [name | e]; simpl; [ | discriminate].
    destruct (getitem item "dtype") as [dtype | e]; simpl; [ | discriminate].
    destruct (np_dtype_name dtype) as [canonical | ] eqn:Hnp; simpl; [ | discriminate].
    destruct (getitem item "shape") as [shape | e]; simpl; [ | discriminate].
    intros [= <-]. exists name, dtype, shape, canonical. auto.
  - intros (name & dtype & shape & canonical & (Hn & Hd & Hs) & Hnp & ->).
    rewrite Hn, Hd. simpl. rewrite Hnp. simpl. by rewrite Hs.
Qed.

Lemma canonicalize_tensor_spec_Ok (spec cspec : pyval) :
  canonicalize_tensor_spec np_dtype_name spec = Ok cspec <->
  exists items outs,
    py_iter spec = Ok items /\ cspec = PyList outs /\
    Forall2 (canonical_of np_dtype_name) items outs.
Proof.
  unfold canonicalize_tensor_spec. split.
  - destruct (py_iter spec) as [items | e]; simpl; [ | discriminate].
    destruct (collect _ items) as [outs | e] eqn:Hc; simpl; [ | discriminate].
    intros [= <-]. exists items, outs. repeat split.
    apply collect_Ok in Hc.
    eapply Forall2_impl; [exact Hc | ]. intros x y. apply canonicalize_item_Ok.
  - intros (items & outs & -> & -> & H). simpl.
    assert (Hc : collect (canonicalize_item np_dtype_name) items = Ok outs).
    { apply collect_Ok. eapply Forall2_impl; [exact H | ].
      intros x y. apply canonicalize_item_Ok. }
    by rewrite Hc.
Qed.

(** Canonicalising gives a list as long as the sequence it is given. *)
Lemma canonicalize_tensor_spec_length (spec : pyval) (items outs : list pyval) :
  py_iter spec = Ok items ->
  canonicalize_tensor_spec np_dtype_name spec = Ok (PyList outs) ->
  length outs = length items.
Proof.
  intros Hit H. apply canonicalize_tensor_spec_Ok in H as (items' & outs' & Hit' & [= <-] & H).
  rewrite Hit in Hit'. injection Hit' as <-. symmetry. by eapply Forall2_length.
Qed.

(** An item that passes validation after canonicalisation has one of the
    allowed names as its dtype. *)
Lemma canonical_item_valid_dtype (item out : pyval) :
  canonical_of np_dtype_name item out ->
  item_violations out = [] ->
  exists s, getitem out "dtype" = Ok (PyStr s) /\ In s ALLOWED_DTYPES.
Proof.
  intros (name & dtype & shape & canonical & _ & _ & ->) Hv.
  rewrite item_violations_tensor_item in Hv.
  apply app_eq_nil in Hv as [Hd _].
  apply dtype_violations_nil in Hd as (s & [= <-] & Hin).
  exists canonical. split; [reflexivity | done].
Qed.

Lemma canonical_spec_valid_dtypes (spec cspec : pyval) :
  canonicalize_tensor_spec np_dtype_name spec = Ok cspec ->
  validate_tensor_spec cspec = Ok tt ->
  exists outs,
    cspec = PyList outs /\
    Forall (fun out => exists s, getitem out "dtype" = Ok (PyStr s) /\ In s ALLOWED_DTYPES)
           outs.
Proof.
  intros Hc Hv. apply canonicalize_tensor_spec_Ok in Hc as (items & outs & _ & -> & H).
  exists outs. split; [reflexivity | ].
  rewrite validate_tensor_spec_list, first_violation_Ok, all_violations_nil in Hv.
  induction H as [ | item out items outs Hx _ IH]; [constructor | ].
  inversion Hv as [ | ? ? Hout Hrest]; subst.
  constructor; [ | by apply IH].
  by eapply canonical_item_valid_dtype.
Qed.

(** A sequence whose dtypes the resolver maps to themselves is its own
    canonical form. *)
Lemma canonicalize_fixed_names (items : list pyval) :
  Forall (fun item => exists name d shape,
            item = tensor_item name (PyStr d) shape /\
            np_dtype_name (PyStr d) = Some d) items ->
  canonicalize_tensor_spec np_dtype_name (PyList items) = Ok (PyList items).
Proof.
  intros H. apply canonicalize_tensor_spec_Ok. exists items, items.
  repeat split. induction H as [ | item items (name & d & shape & -> & Hnp) _ IH];
    constructor; [ | exact IH].
  exists name, (PyStr d), shape, d. repeat split. exact Hnp.
Qed.

End Canonicalisation.

(** ** The serializer *)

Section Serializer.

Variable np_dtype_name : pyval -> option string.

Lemma open_w_Ok (fs fs1 : filesystem) (dir path : string) :
  open_w fs dir path = Ok fs1 <->
  fs !! dir = Some Dir /\ fs !! path <> Some Dir /\ fs1 = <[path := File EmptyFile]> fs.
Proof.
  unfold open_w. split.
  - destruct (fs !! dir) as [ [ | c] | ]; try discriminate.
    destruct (fs !! path) as [ [ | c] | ]; try discriminate;
      intros [= <-]; repeat split; congruence.
  - intros (-> & Hp & ->).
    destruct (fs !! path) as [ [ | c] | ]; congruence.
Qed.

Lemma build_config_Ok (model_name platform input_spec output_spec config : pyval) :
  build_config np_dtype_name model_name platform input_spec output_spec = Ok config <->
  exists cin cout,
    canonicalize_tensor_spec np_dtype_name input_spec = Ok cin /\
    canonicalize_tensor_spec np_dtype_name output_spec = Ok cout /\
    validate_neuropod_config (make_config model_name platform cin cout) = Ok tt /\
    config = make_config model_name platform cin cout.
Proof.
  unfold build_config. split.
  - destruct (canonicalize_tensor_spec _ input_spec) as [cin | e]; simpl; [ | discriminate].
    destruct (canonicalize_tensor_spec _ output_spec) as [cout | e]; simpl; [ | discriminate].
    destruct (validate_neuropod_config _) as [ [] | e] eqn:Hv; simpl; [ | discriminate].
    intros [= <-]. exists cin, cout. auto.
  - intros (cin & cout & -> & -> & Hv & ->). simpl. by rewrite Hv.
Qed.

(** A call that returns has written the document of a validated config. *)
Lemma write_neuropod_config_Ok (fs fs' : filesystem) (dir : string)
    (model_name platform input_spec output_spec : pyval) :
  write_neuropod_config np_dtype_name fs dir model_name platform input_spec output_spec
  = (fs', Ok tt) <->
  exists config,
    fs !! dir = Some Dir /\
    fs !! path_join dir "config.json" <> Some Dir /\
    build_config np_dtype_name model_name platform input_spec output_spec = Ok config /\
    fs' = <[path_join dir "config.json" := File (JsonFile (json_dump config))]> fs.
Proof.
  unfold write_neuropod_config. split.
  - destruct (open_w fs dir _) as [fs1 | e] eqn:Hopen; [ | discriminate].
    apply open_w_Ok in Hopen as (Hd & Hp & ->).
    destruct (build_config _ _ _ _ _) as [config | e]; [ | discriminate].
    intros [= <-]. exists config. repeat split; try done.
    apply insert_insert_eq.
  - intros (config & Hd & Hp & -> & ->).
    assert (Hopen : open_w fs dir (path_join dir "config.json")
                    = Ok (<[path_join dir "config.json" := File EmptyFile]> fs)).
    { by apply open_w_Ok. }
    rewrite Hopen. by rewrite insert_insert_eq.
Qed.

(** A call that fails inside the [with] block leaves the file it has
    opened, empty. *)
Lemma write_neuropod_config_Raise (fs : filesystem) (dir : string) (e : error)
    (model_name platform input_spec output_spec : pyval) :
  fs !! dir = Some Dir ->
  fs !! path_join dir "config.json" <> Some Dir ->
  build_config np_dtype_name model_name platform input_spec output_spec = Raise e ->
  write_neuropod_config np_dtype_name fs dir model_name platform input_spec output_spec
  = (<[path_join dir "config.json" := File EmptyFile]> fs, Raise e).
Proof.
  intros Hd Hp Hb. unfold write_neuropod_config.
  assert (Hopen : open_w fs dir (path_join dir "config.json")
                  = Ok (<[path_join dir "config.json" := File EmptyFile]> fs)).
  { by apply open_w_Ok. }
  by rewrite Hopen, Hb.
Qed.

Lemma build_config_bad_name (model_name platform input_spec output_spec cin cout : pyval) :
  canonicalize_tensor_spec np_dtype_name input_spec = Ok cin ->
  canonicalize_tensor_spec np_dtype_name output_spec = Ok cout ->
  isinstance_basestring model_name = false ->
  build_config np_dtype_name model_name platform input_spec output_spec
  = Raise (InvalidFieldType InConfig "name" model_name).
Proof.
  intros Hi Ho Hn. unfold build_config. rewrite Hi, Ho.
  destruct (getitem_make_config model_name platform cin cout) as (Hname & Hplatform & _).
  cbn beta iota delta [mbind result_bind].
  by rewrite (validate_config_bad_name _ _ _ Hname Hplatform Hn).
Qed.

End Serializer.

(** C1, what the code does.  The directory [pkg] holds a valid config.
    [write_neuropod_config] called on it with the name 123 raises the
    field-type error for ["name"], and by then it has opened
    [config.json] for writing: the file is left empty, and reading the
    package, which worked before the call, fails after it.  In a
    directory without a config the call creates the empty file. *)
Theorem failed_write_empties_config (np_dtype_name : pyval -> option string) :
  let old := make_config (PyStr "m") (PyStr "python") (PyList []) (PyList []) in
  let fs := <["pkg" := Dir]> (<["pkg/config.json" := File (JsonFile (json_dump old))]> ∅) in
  let fresh_fs : filesystem := <["pkg" := Dir]> ∅ in
  let name_error := InvalidFieldType InConfig "name" (PyInt 123) in
  read_neuropod_config fs "pkg" = Ok old
  /\ write_neuropod_config np_dtype_name fs "pkg"
       (PyInt 123) (PyStr "python") (PyList []) (PyList [])
     = (<["pkg/config.json" := File EmptyFile]> fs, Raise name_error)
  /\ read_neuropod_config (<["pkg/config.json" := File EmptyFile]> fs) "pkg"
     = Raise JSONDecodeError
  /\ fresh_fs !! "pkg/config.json" = None
  /\ write_neuropod_config np_dtype_name fresh_fs "pkg"
       (PyInt 123) (PyStr "python") (PyList []) (PyList [])
     = (<["pkg/config.json" := File EmptyFile]> fresh_fs, Raise name_error).
Proof.
  intros old fs fresh_fs name_error.
  split; [by vm_compute | ].
  split; [ | split; [by vm_compute | split; [by vm_compute | ] ] ].
  - apply write_neuropod_config_Raise; [by vm_compute | by vm_compute | ].
    by apply (build_config_bad_name _ _ _ _ _ (PyList []) (PyList [])).
  - apply write_neuropod_config_Raise; [by vm_compute | by vm_compute | ].
    by apply (build_config_bad_name _ _ _ _ _ (PyList []) (PyList [])).
Qed.

Lemma validate_make_config_Ok (name platform input_spec output_spec : pyval) :
  validate_neuropod_config (make_config name platform input_spec output_spec) = Ok tt <->
  isinstance_basestring name = true /\ isinstance_basestring platform = true /\
  validate_tensor_spec input_spec = Ok tt /\ validate_tensor_spec output_spec = Ok tt.
Proof.
  unfold validate_neuropod_config.
  destruct (getitem_make_config name platform input_spec output_spec)
    as (-> & -> & -> & ->).
  cbn beta iota delta [mbind result_bind].
  destruct (isinstance_basestring name); simpl; [ | split; [discriminate | intros (? & _); discriminate] ].
  destruct (isinstance_basestring platform); simpl;
    [ | split; [discriminate | intros (_ & ? & _); discriminate] ].
  destruct (validate_tensor_spec input_spec) as [ [] | e]; simpl;
    [ | split; [discriminate | intros (_ & _ & ? & _); discriminate] ].
  split; [auto | tauto].
Qed.

(** ** Claims about the Canonicalizer *)

(** C2, amended.  The Canonicalizer returns the name the resolver gives,
    whatever it is, and fails with [UnrecognizedDtype] when the resolver
    gives none; it does not look at the allowed names, which are eleven.
    It is the validator, run on the canonicalised sequence, that holds the
    names to the allowed ones: a canonicalised sequence that passes has
    one of them in every item, and so has every config that
    [write_neuropod_config] has written. *)
Theorem canonical_names_enforced_by_validator (np_dtype_name : pyval -> option string) :
  (forall v,
     canonicalize_dtype np_dtype_name v =
     match np_dtype_name v with
     | Some name => Ok name
     | None => Raise (UnrecognizedDtype v)
     end)
  /\ length ALLOWED_DTYPES = 11%nat
  /\ (forall spec cspec,
        canonicalize_tensor_spec np_dtype_name spec = Ok cspec ->
        validate_tensor_spec cspec = Ok tt ->
        exists outs,
          cspec = PyList outs /\
          Forall (fun out => exists s, getitem out "dtype" = Ok (PyStr s) /\
                                       In s ALLOWED_DTYPES) outs)
  /\ (forall fs dir model_name platform input_spec output_spec fs',
        write_neuropod_config np_dtype_name fs dir model_name platform input_spec output_spec
        = (fs', Ok tt) ->
        exists cin cout,
          fs' !! path_join dir "config.json"
          = Some (File (JsonFile (json_dump
                   (make_config model_name platform (PyList cin) (PyList cout))))) /\
          Forall (fun out => exists s, getitem out "dtype" = Ok (PyStr s) /\
                                       In s ALLOWED_DTYPES) (cin ++ cout)).
Proof.
  split; [reflexivity | split; [reflexivity | split] ].
  - apply canonical_spec_valid_dtypes.
  - intros fs dir model_name platform input_spec output_spec fs' Hw.
    apply write_neuropod_config_Ok in Hw as (config & _ & _ & Hb & ->).
    apply build_config_Ok in Hb as (cin & cout & Hi & Ho & Hv & ->).
    apply validate_make_config_Ok in Hv as (_ & _ & Hvi & Hvo).
    destruct (canonical_spec_valid_dtypes _ _ _ Hi Hvi) as (ins & -> & Hins).
    destruct (canonical_spec_valid_dtypes _ _ _ Ho Hvo) as (outs & -> & Houts).
    exists ins, outs. split; [apply lookup_insert_eq | ].
    apply Forall_app. by split.
Qed.

(** A run of [canonical_names_enforced_by_validator]: ["double"] is
    canonicalised to ["float64"], which the validator lets through. *)
Lemma canonical_names_enforced_by_validator_witness :
  exists outs,
    PyList [tensor_item (PyStr "x") (PyStr "float64") (PyTuple [PyNone])] = PyList outs /\
    Forall (fun out => exists s, getitem out "dtype" = Ok (PyStr s) /\
                                 In s ALLOWED_DTYPES) outs.
Proof.
  destruct (canonical_names_enforced_by_validator numpy_dtype_name) as (_ & _ & H & _).
  apply (H (PyList [tensor_item (PyStr "x") (PyStr "double") (PyTuple [PyNone])]));
    reflexivity.
Defined.

(** Against C2 as it is worded: ["float16"] is canonicalised to
    ["float16"], which is not an allowed name, and no error is raised.
    Nothing in the canonicalizer holds the resolver's answer to the
    allowed names. *)
Lemma canonicalize_returns_float16 :
  canonicalize_dtype numpy_dtype_name (PyStr "float16") = Ok "float16"
  /\ ~ In "float16" ALLOWED_DTYPES
  /\ canonicalize_tensor_spec numpy_dtype_name
       (PyList [tensor_item (PyStr "x") (PyStr "float16") (PyList [])])
     = Ok (PyList [tensor_item (PyStr "x") (PyStr "float16") (PyList [])])
  /\ ~ (forall np_dtype_name v name,
          canonicalize_dtype np_dtype_name v = Ok name -> In name ALLOWED_DTYPES).
Proof.
  assert (Hout : ~ In "float16" ALLOWED_DTYPES).
  { simpl. intros H. repeat (destruct H as [H | H]; [discriminate | ]). exact H. }
  split; [reflexivity | split; [exact Hout | split; [reflexivity | ] ] ].
  intros H. apply Hout.
  by apply (H numpy_dtype_name (PyStr "float16")).
Qed.

Lemma numpy_fixes_allowed (d : string) :
  In d ALLOWED_DTYPES -> numpy_dtype_name (PyStr d) = Some d.
Proof.
  intros H. unfold numpy_dtype_name.
  apply existsb_eqb_In in H. by rewrite H.
Qed.

(** C3.  Under the resolver of the specification, an allowed name is
    canonicalised to itself, a sequence of items with allowed dtypes is
    canonicalised to itself, and canonicalising the result of a
    canonicalisation changes nothing. *)
Theorem canonicalize_fixes_allowed_names (d : string) :
  In d ALLOWED_DTYPES ->
  canonicalize_dtype numpy_dtype_name (PyStr d) = Ok d
  /\ (canonicalize_dtype numpy_dtype_name (PyStr d) ≫=
        fun c => canonicalize_dtype numpy_dtype_name (PyStr c))
     = canonicalize_dtype numpy_dtype_name (PyStr d)
  /\ (forall name shape,
        canonicalize_tensor_spec numpy_dtype_name
          (PyList [tensor_item name (PyStr d) shape])
        = Ok (PyList [tensor_item name (PyStr d) shape])).
Proof.
  intros H. pose proof (numpy_fixes_allowed d H) as Hnp.
  assert (Hd : canonicalize_dtype numpy_dtype_name (PyStr d) = Ok d).
  { unfold canonicalize_dtype. by rewrite Hnp. }
  split; [exact Hd | split].
  - rewrite Hd. simpl. exact Hd.
  - intros name shape. apply canonicalize_fixed_names.
    constructor; [ | constructor]. by exists name, d, shape.
Qed.

(** A run of [canonicalize_fixes_allowed_names] on ["string"]. *)
Lemma canonicalize_fixes_allowed_names_witness :
  canonicalize_dtype numpy_dtype_name (PyStr "string") = Ok "string".
Proof.
  apply (canonicalize_fixes_allowed_names "string"). simpl. tauto.
Defined.

(** ** Validation and the trip through JSON *)

Lemma getitem_tuples_to_lists (v x : pyval) (key : string) :
  getitem v key = Ok x ->
  getitem (tuples_to_lists v) key = Ok (tuples_to_lists x).
Proof.
  destruct v; simpl; try discriminate.
  rewrite lookup_fmap. destruct (d !! key); simpl; [ | discriminate].
  by intros [= ->].
Qed.

Lemma tuples_to_lists_tensor_item (name dtype shape : pyval) :
  tuples_to_lists (tensor_item name dtype shape) =
  tensor_item (tuples_to_lists name) (tuples_to_lists dtype) (tuples_to_lists shape).
Proof.
  unfold tensor_item. simpl. by rewrite !fmap_insert, fmap_empty.
Qed.

Lemma tuples_to_lists_make_config (name platform input_spec output_spec : pyval) :
  tuples_to_lists (make_config name platform input_spec output_spec) =
  make_config (tuples_to_lists name) (tuples_to_lists platform)
              (tuples_to_lists input_spec) (tuples_to_lists output_spec).
Proof.
  unfold make_config. simpl. by rewrite !fmap_insert, fmap_empty.
Qed.

Lemma is_dimension_tuples_to_lists (dim : pyval) :
  is_dimension dim = true -> tuples_to_lists dim = dim.
Proof. destruct dim; simpl; congruence. Qed.

Lemma dims_tuples_to_lists (dims : list pyval) :
  flat_map dim_violations dims = [] -> map tuples_to_lists dims = dims.
Proof.
  induction dims as [ | dim dims IH]; simpl; [done | ].
  unfold dim_violations at 1.
  destruct (is_dimension dim) eqn:Hd; simpl; [ | discriminate].
  intros H. by rewrite (is_dimension_tuples_to_lists _ Hd), IH.
Qed.

(** An item passes when its dtype is an allowed name, its name a string
    and its shape a list or a tuple of dimensions. *)
Lemma item_violations_nil (item : pyval) :
  item_violations item = [] <->
  exists name dtype shape dims,
    has_fields item (PyStr name) (PyStr dtype) shape /\
    In dtype ALLOWED_DTYPES /\
    (shape = PyList dims \/ shape = PyTuple dims) /\
    flat_map dim_violations dims = [].
Proof.
  split.
  - unfold item_violations, has_fields.
    destruct (getitem item "name") as [name | e]; [ | discriminate].
    destruct (getitem item "dtype") as [dtype | e]; [ | discriminate].
    destruct (getitem item "shape") as [shape | e]; [ | discriminate].
    intros H. apply app_eq_nil in H as [Hd H]. apply app_eq_nil in H as [Hn Hs].
    apply dtype_violations_nil in Hd as (d & -> & Hin).
    unfold name_violations in Hn. destruct name as [ | | | | n | | | ]; try discriminate.
    destruct shape as [ | | | | | dims | dims | ]; try discriminate;
      exists n, d; eexists; exists dims; auto.
  - intros (name & dtype & shape & dims & Hf & Hin & Hshape & Hdims).
    rewrite (item_violations_fields _ _ _ _ Hf).
    assert (Hd : dtype_violations (PyStr dtype) = []) by (apply dtype_violations_nil; eauto).
    rewrite Hd. simpl. by destruct Hshape as [-> | ->].
Qed.

Lemma item_violations_tuples_to_lists (item : pyval) :
  item_violations item = [] -> item_violations (tuples_to_lists item) = [].
Proof.
  intros H. apply item_violations_nil in H
    as (name & dtype & shape & dims & (Hn & Hd & Hs) & Hin & Hshape & Hdims).
  apply item_violations_nil. exists name, dtype, (PyList dims), dims.
  repeat split; auto.
  - by apply getitem_tuples_to_lists in Hn.
  - by apply getitem_tuples_to_lists in Hd.
  - apply getitem_tuples_to_lists in Hs. rewrite Hs.
    destruct Hshape as [-> | ->]; simpl; by rewrite (dims_tuples_to_lists _ Hdims).
Qed.

Lemma all_violations_tuples_to_lists (items : list pyval) :
  all_violations items = [] -> all_violations (map tuples_to_lists items) = [].
Proof.
  rewrite !all_violations_nil. intros H. apply Forall_map.
  eapply Forall_impl; [exact H | ]. apply item_violations_tuples_to_lists.
Qed.

(** A sequence that passes still passes once its tuples are lists. *)
Lemma validate_tensor_spec_tuples_to_lists (spec : pyval) :
  validate_tensor_spec spec = Ok tt ->
  validate_tensor_spec (tuples_to_lists spec) = Ok tt.
Proof.
  destruct spec as [ | b | z | f | s | l | l | d]; try discriminate.
  - intros H. exact H.
  - rewrite validate_tensor_spec_list. simpl. rewrite validate_tensor_spec_list.
    rewrite !first_violation_Ok. apply all_violations_tuples_to_lists.
  - rewrite validate_tensor_spec_tuple. simpl. rewrite validate_tensor_spec_list.
    rewrite !first_violation_Ok. apply all_violations_tuples_to_lists.
  - unfold validate_tensor_spec. simpl. rewrite !validate_items.
    destruct (map_to_list d) as [ | [k x] kvs] eqn:Hd; [ | discriminate].
    apply map_to_list_empty_iff in Hd as ->. by rewrite fmap_empty.
Qed.

(** What it takes for a config to pass. *)
Lemma validate_neuropod_config_Ok (config : pyval) :
  validate_neuropod_config config = Ok tt <->
  exists name platform input_spec output_spec,
    getitem config "name" = Ok (PyStr name) /\
    getitem config "platform" = Ok (PyStr platform) /\
    getitem config "input_spec" = Ok input_spec /\
    getitem config "output_spec" = Ok output_spec /\
    validate_tensor_spec input_spec = Ok tt /\
    validate_tensor_spec output_spec = Ok tt.
Proof.
  unfold validate_neuropod_config. split.
  - destruct (getitem config "name") as [name | e]; simpl; [ | discriminate].
    destruct (getitem config "platform") as [platform | e]; simpl; [ | discriminate].
    destruct name as [ | | | | n | | | ]; simpl; try discriminate.
    destruct platform as [ | | | | p | | | ]; simpl; try discriminate.
    destruct (getitem config "input_spec") as [input_spec | e]; simpl; [ | discriminate].
    destruct (validate_tensor_spec input_spec) as [ [] | e] eqn:Hvi; simpl; [ | discriminate].
    destruct (getitem config "output_spec") as [output_spec | e]; simpl; [ | discriminate].
    intros Hvo. exists n, p, input_spec, output_spec. repeat split; assumption.
  - intros (n & p & input_spec & output_spec & -> & -> & -> & -> & Hvi & Hvo).
    simpl. rewrite Hvi. simpl. exact Hvo.
Qed.

(** A config that passes still passes once its tuples are lists. *)
Lemma validate_neuropod_config_tuples_to_lists (config : pyval) :
  validate_neuropod_config config = Ok tt ->
  validate_neuropod_config (tuples_to_lists config) = Ok tt.
Proof.
  rewrite !validate_neuropod_config_Ok.
  intros (n & p & input_spec & output_spec & Hn & Hp & Hi & Ho & Hvi & Hvo).
  exists n, p, (tuples_to_lists input_spec), (tuples_to_lists output_spec).
  repeat split.
  - by apply getitem_tuples_to_lists in Hn.
  - by apply getitem_tuples_to_lists in Hp.
  - by apply getitem_tuples_to_lists.
  - by apply getitem_tuples_to_lists.
  - by apply validate_tensor_spec_tuples_to_lists.
  - by apply validate_tensor_spec_tuples_to_lists.
Qed.

(** Reading a directory whose file holds the document of a valid config
    returns that config with its tuples turned into lists. *)
Lemma read_dumped_config (fs : filesystem) (dir : string) (config : pyval) :
  fs !! path_join dir "config.json" = Some (File (JsonFile (json_dump config))) ->
  validate_neuropod_config config = Ok tt ->
  read_neuropod_config fs dir = Ok (tuples_to_lists config).
Proof.
  intros Hfile Hv. unfold read_neuropod_config, open_r. rewrite Hfile.
  cbn beta iota delta [mbind result_bind json_load_file].
  rewrite json_load_dump.
  by rewrite (validate_neuropod_config_tuples_to_lists _ Hv).
Qed.



(** ** Claims about the serializer *)




(** ** What a call leaves in place *)

Lemma read_only_ret {A : Type} (a : A) : Store.read_only (mret a).
Proof. by intros h. Qed.

Lemma read_only_throw {A : Type} (e : Store.exn) : Store.read_only (@Store.throw A e).
Proof. by intros h. Qed.

Lemma read_only_bind {A B : Type} (c : Store.M A) (f : A -> Store.M B) :
  Store.read_only c -> (forall a, Store.read_only (f a)) -> Store.read_only (c ≫= f).
Proof.
  intros Hc Hf h. unfold mbind, Store.M_bind.
  specialize (Hc h). destruct (c h) as [h1 [a | e] ]; simpl in *; subst; [apply Hf | done].
Qed.

Lemma read_only_deref (l : Store.loc) : Store.read_only (Store.deref l).
Proof. intros h. unfold Store.deref. by destruct (h !! l). Qed.

Lemma read_only_getitem (v : Store.value) (key : string) :
  Store.read_only (Store.getitem v key).
Proof.
  destruct v; simpl; try apply read_only_throw.
  apply read_only_bind; [apply read_only_deref | ].
  intros [items | d]; [apply read_only_throw | ].
  destruct (d !! key); [apply read_only_ret | apply read_only_throw].
Qed.

Lemma read_only_iterate (v : Store.value) : Store.read_only (Store.iterate v).
Proof.
  destruct v; simpl; try apply read_only_throw; try apply read_only_ret.
  apply read_only_bind; [apply read_only_deref | ].
  intros [items | d]; apply read_only_ret.
Qed.

Lemma read_only_isinstance_list_tuple (v : Store.value) :
  Store.read_only (Store.isinstance_list_tuple v).
Proof.
  destruct v; simpl; try apply read_only_ret.
  apply read_only_bind; [apply read_only_deref | intros o; apply read_only_ret].
Qed.

Lemma read_only_for_each {A : Type} (body : A -> Store.M unit) (l : list A) :
  (forall x, Store.read_only (body x)) -> Store.read_only (Store.for_each body l).
Proof.
  intros Hbody. induction l as [ | x l IH]; simpl; [apply read_only_ret | ].
  apply read_only_bind; [apply Hbody | intros _; exact IH].
Qed.

Lemma read_only_validate_dim (dim : Store.value) :
  Store.read_only (Store.validate_dim dim).
Proof.
  unfold Store.validate_dim.
  destruct (_ || _); [apply read_only_ret | apply read_only_throw].
Qed.

Lemma read_only_validate_item (item : Store.value) :
  Store.read_only (Store.validate_item item).
Proof.
  unfold Store.validate_item.
  apply read_only_bind; [apply read_only_getitem | intros name].
  apply read_only_bind; [apply read_only_getitem | intros dtype].
  apply read_only_bind; [apply read_only_getitem | intros shape].
  destruct (negb (Store.py_in _ _)); [apply read_only_throw | ].
  destruct (negb (Store.isinstance_basestring _)); [apply read_only_throw | ].
  apply read_only_bind; [apply read_only_isinstance_list_tuple | intros is_seq].
  destruct (negb is_seq); [apply read_only_throw | ].
  apply read_only_bind; [apply read_only_iterate | intros dims].
  apply read_only_for_each, read_only_validate_dim.
Qed.

Lemma read_only_validate_tensor_spec (spec : Store.value) :
  Store.read_only (Store.validate_tensor_spec spec).
Proof.
  unfold Store.validate_tensor_spec.
  apply read_only_bind; [apply read_only_iterate | intros items].
  apply read_only_for_each, read_only_validate_item.
Qed.

Lemma read_only_validate_neuropod_config (config : Store.value) :
  Store.read_only (Store.validate_neuropod_config config).
Proof.
  unfold Store.validate_neuropod_config.
  apply read_only_bind; [apply read_only_getitem | intros name].
  apply read_only_bind; [apply read_only_getitem | intros platform].
  destruct (negb (Store.isinstance_basestring name)); [apply read_only_throw | ].
  destruct (negb (Store.isinstance_basestring platform)); [apply read_only_throw | ].
  apply read_only_bind; [apply read_only_getitem | intros input_spec].
  apply read_only_bind; [apply read_only_validate_tensor_spec | intros _].
  apply read_only_bind; [apply read_only_getitem | intros output_spec].
  apply read_only_validate_tensor_spec.
Qed.

Lemma run_bind {A B : Type} (c : Store.M A) (f : A -> Store.M B) (h : Store.heap) :
  (c ≫= f) h =
  match c h with
  | (h', Store.Return a) => f a h'
  | (h', Store.Throw e) => (h', Store.Throw e)
  end.
Proof. reflexivity. Qed.

Lemma getitem_run (v : Store.value) (key : string) (h h' : Store.heap)
    (r : Store.outcome Store.value) :
  Store.getitem v key h = (h', r) ->
  h' = h /\
  forall x, r = Store.Return x ->
    exists l entries,
      v = Store.VRef l /\ h !! l = Some (Store.ODict entries) /\ entries !! key = Some x.
Proof.
  intros Hrun. split.
  - pose proof (read_only_getitem v key h) as H. rewrite Hrun in H. exact H.
  - intros x ->. destruct v; try discriminate.
    simpl in Hrun. rewrite run_bind in Hrun. unfold Store.deref in Hrun.
    destruct (h !! l) as [ [items | d] | ] eqn:Hl; try discriminate.
    destruct (d !! key) as [y | ] eqn:Hk; try discriminate.
    injection Hrun as _ <-. eauto.
Qed.

Section StoreCanonicalisation.

Variable np_dtype_name : Store.heap -> Store.value -> option string.

(** One turn of the loop: it throws and leaves the heap as it is, or it
    adds one dict at an unused address and appends a reference to it to
    [transformed]. *)
Lemma canonicalize_step_run (t : Store.loc) (item : Store.value)
    (h h1 : Store.heap) (outs : list Store.value) (r : Store.outcome unit) :
  h !! t = Some (Store.OList outs) ->
  Store.canonicalize_step np_dtype_name t item h = (h1, r) ->
  match r with
  | Store.Throw _ => h1 = h
  | Store.Return _ =>
      exists d name dtype shape canonical,
        h !! d = None /\
        Store.item_fields h item name dtype shape /\
        h1 = <[t := Store.OList (outs ++ [Store.VRef d])]>
               (<[d := Store.tensor_item name (Store.VStr canonical) shape]> h)
  end.
Proof.
  intros Ht. unfold Store.canonicalize_step.
  rewrite run_bind.
  destruct (Store.getitem item "name" h) as [h' [name | e] ] eqn:Hn;
    apply getitem_run in Hn as [-> Hn]; [ | by intros [= <- <-] ].
  rewrite run_bind.
  destruct (Store.getitem item "dtype" h) as [h' [dtype | e] ] eqn:Hd;
    apply getitem_run in Hd as [-> Hd]; [ | by intros [= <- <-] ].
  rewrite run_bind. unfold Store.canonicalize_dtype at 1.
  destruct (np_dtype_name h dtype) as [canonical | ]; [ | by intros [= <- <-] ].
  rewrite run_bind.
  destruct (Store.getitem item "shape" h) as [h' [shape | e] ] eqn:Hs;
    apply getitem_run in Hs as [-> Hs]; [ | by intros [= <- <-] ].
  rewrite run_bind. unfold Store.alloc, Store.append.
  set (d := fresh (dom h)).
  assert (Hfresh : h !! d = None) by (apply not_elem_of_dom, is_fresh).
  assert (Hdt : d <> t) by congruence.
  rewrite lookup_insert_ne by done. rewrite Ht.
  intros [= <- <-].
  destruct (Hn name eq_refl) as (l & entries & -> & Hl & Hname).
  destruct (Hd dtype eq_refl) as (l' & entries' & [= <-] & Hl' & Hdtype).
  destruct (Hs shape eq_refl) as (l'' & entries'' & [= <-] & Hl'' & Hshape).
  rewrite Hl in Hl', Hl''. injection Hl' as <-. injection Hl'' as <-.
  exists d, name, dtype, shape, canonical. repeat split; try done.
  exists l, entries. auto.
Qed.

(** The loop: objects other than [transformed] stay as they are, and when
    the loop ends [transformed] has grown by one new dict for each item. *)
Lemma canonicalize_loop (t : Store.loc) (items : list Store.value) :
  forall (h h' : Store.heap) (outs : list Store.value) (r : Store.outcome unit),
    h !! t = Some (Store.OList outs) ->
    Store.for_each (Store.canonicalize_step np_dtype_name t) items h = (h', r) ->
    (forall l o, l <> t -> h !! l = Some o -> h' !! l = Some o)
    /\ (forall l, h' !! l = None -> h !! l = None)
    /\ (r = Store.Return tt ->
        exists outs',
          h' !! t = Some (Store.OList (outs ++ outs')) /\
          Forall2 (Store.transformed_from h h') items outs').
Proof.
  induction items as [ | item items IH]; intros h h' outs r Ht Hrun.
  - injection Hrun as <- <-. repeat split; auto.
    intros _. exists []. rewrite app_nil_r. split; [done | constructor].
  - simpl in Hrun. rewrite run_bind in Hrun.
    destruct (Store.canonicalize_step np_dtype_name t item h) as [h1 [ [] | e] ] eqn:Hstep;
      apply (canonicalize_step_run _ _ _ _ _ _ Ht) in Hstep.
    + destruct Hstep as (d & name & dtype & shape & canonical & Hfresh & Hfields & ->).
      assert (Hdt : d <> t) by congruence.
      set (h1 := <[t := Store.OList (outs ++ [Store.VRef d])]>
                   (<[d := Store.tensor_item name (Store.VStr canonical) shape]> h)) in *.
      assert (Ht1 : h1 !! t = Some (Store.OList (outs ++ [Store.VRef d])))
        by apply lookup_insert_eq.
      destruct (IH h1 h' _ r Ht1 Hrun) as (Hframe & Hnone & Hok).
      assert (Hkeep : forall l o, l <> t -> h !! l = Some o -> h1 !! l = Some o).
      { intros l o Hlt Hl. unfold h1.
        rewrite lookup_insert_ne by done.
        rewrite lookup_insert_ne by congruence. done. }
      assert (Hnone1 : forall l, h1 !! l = None -> h !! l = None).
      { intros l Hl. unfold h1 in Hl.
        destruct (decide (l = t)) as [-> | Hlt]; [by rewrite lookup_insert_eq in Hl | ].
        rewrite lookup_insert_ne in Hl by done.
        destruct (decide (l = d)) as [-> | Hld]; [by rewrite lookup_insert_eq in Hl | ].
        by rewrite lookup_insert_ne in Hl by done. }
      split; [ | split].
      * intros l o Hlt Hl. apply Hframe; [done | by apply Hkeep].
      * intros l Hl. by apply Hnone1, Hnone.
      * intros ->. destruct (Hok eq_refl) as (outs' & Ht' & Hrest).
        exists (Store.VRef d :: outs'). split.
        -- by rewrite <- app_assoc in Ht'.
        -- constructor.
           ++ exists d, name, dtype, shape, canonical. repeat split; try done.
              ** destruct Hfields as (l & entries & -> & Hl & Hname & Hdtype & Hshape).
                 exists l, entries. repeat split; try done.
                 apply Hframe; [congruence | ]. apply Hkeep; [congruence | done].
              ** apply Hframe; [done | ]. unfold h1.
                 rewrite lookup_insert_ne by done. apply lookup_insert_eq.
           ++ eapply Forall2_impl; [exact Hrest | ].
              intros x y (d' & n' & dt' & s' & c' & -> & Hd' & Hf' & Hobj').
              exists d', n', dt', s', c'. repeat split; try done. by apply Hnone1.
    + simpl in Hstep. subst h1. injection Hrun as <- <-. repeat split; auto. discriminate.
Qed.

End StoreCanonicalisation.

Lemma iterate_run (v : Store.value) (h h' : Store.heap) (items : list Store.value) :
  Store.iterate v h = (h, Store.Return items) ->
  (forall l o, v = Store.VRef l -> h !! l = Some o -> h' !! l = Some o) ->
  Store.iterate v h' = (h', Store.Return items).
Proof.
  destruct v; try discriminate; simpl.
  - by intros [= <-].
  - by intros [= <-].
  - rewrite !run_bind. unfold Store.deref. intros Hrun Hsame.
    destruct (h !! l) as [o | ] eqn:Hl; [ | discriminate].
    rewrite (Hsame l o eq_refl Hl).
    destruct o; by injection Hrun as <-.
Qed.

(** [canonicalize_tensor_spec] over the store: every object that was
    there is as it was, whether the call returns or throws; what it
    returns is a list at an address that was not in use, with one new
    dict for each item of the sequence. *)
Lemma canonicalize_tensor_spec_run (np_dtype_name : Store.heap -> Store.value -> option string)
    (spec : Store.value) (h h' : Store.heap) (r : Store.outcome Store.value) :
  Store.canonicalize_tensor_spec np_dtype_name spec h = (h', r) ->
  (forall l o, h !! l = Some o -> h' !! l = Some o)
  /\ (forall out, r = Store.Return out ->
      exists t items outs,
        out = Store.VRef t /\ h !! t = None /\
        h' !! t = Some (Store.OList outs) /\
        Store.iterate spec h' = (h', Store.Return items) /\
        Forall2 (Store.transformed_from h h') items outs).
Proof.
  unfold Store.canonicalize_tensor_spec. rewrite run_bind. unfold Store.alloc.
  set (t := fresh (dom h)).
  assert (Hfresh : h !! t = None) by (apply not_elem_of_dom, is_fresh).
  set (h1 := <[t := Store.OList []]> h).
  assert (Ht1 : h1 !! t = Some (Store.OList [])) by apply lookup_insert_eq.
  assert (Hkeep : forall l o, h !! l = Some o -> l <> t /\ h1 !! l = Some o).
  { intros l o Hl. assert (l <> t) by congruence.
    split; [done | ]. unfold h1. by rewrite lookup_insert_ne. }
  rewrite run_bind.
  pose proof (read_only_iterate spec h1) as Hro.
  destruct (Store.iterate spec h1) as [h1' [items | e] ] eqn:Hit; simpl in Hro; subst h1'.
  - rewrite run_bind.
    destruct (Store.for_each _ items h1) as [h2 [ [] | e] ] eqn:Hloop;
      destruct (canonicalize_loop _ _ _ _ _ _ _ Ht1 Hloop) as (Hframe & Hnone & Hok).
    + intros [= <- <-]. split.
      * intros l o Hl. destruct (Hkeep l o Hl). by apply Hframe.
      * intros out [= <-]. destruct (Hok eq_refl) as (outs & Ht2 & Hrel).
        exists t, items, outs. repeat split; try done.
        -- apply (iterate_run _ h1); [done | ].
           intros l o -> Hl.
           destruct (decide (l = t)) as [-> | Hlt]; [ | by apply Hframe].
           simpl in Hit. rewrite run_bind in Hit. unfold Store.deref in Hit.
           rewrite Ht1 in Hit. injection Hit as <-.
           injection Hloop as <-. done.
        -- eapply Forall2_impl; [exact Hrel | ].
           intros x y (d & n & dt & s & c & -> & Hd & Hf & Hobj).
           exists d, n, dt, s, c. repeat split; try done.
           destruct (h !! d) as [o | ] eqn:Hhd; [ | done].
           destruct (Hkeep d o Hhd) as [_ Hd1]. congruence.
    + intros [= <- <-]. split; [ | discriminate].
      intros l o Hl. destruct (Hkeep l o Hl). by apply Hframe.
  - intros [= <- <-]. split; [ | discriminate].
    intros l o Hl. by destruct (Hkeep l o Hl).
Qed.

(** ** The two embeddings agree *)

(** The functions over the store and the functions over values are two
    readings of the same code: on a stored value and the value it stands
    for they end the same way, and what [canonicalize_tensor_spec] returns
    over the store stands for what it returns over values. *)

(** A value keeps what it stands for when every object stays as it
    is. *)
Lemma denotes_mono (h h' : Store.heap) :
  (forall l o, h !! l = Some o -> h' !! l = Some o) ->
  forall v p, denotes h v p -> denotes h' v p.
Proof.
  intros Hframe.
  fix IH 3. intros v p [ | b | z | f | s | vs ps Hall | l vs ps Hl Hall | l m pm Hl Hall].
  - constructor.
  - constructor.
  - constructor.
  - constructor.
  - constructor.
  - constructor. induction Hall as [ | x y xs ys Hxy _ IHall]; constructor; [by apply IH | done].
  - econstructor; [by apply Hframe | ]. clear Hl.
    induction Hall as [ | x y xs ys Hxy _ IHall]; constructor; [by apply IH | done].
  - econstructor; [by apply Hframe | ].
    intros k. destruct (Hall k) as [x y Hxy | ]; constructor. by apply IH.
Qed.

Lemma getitem_agree (h : Store.heap) (v : Store.value) (p : pyval) (key : string) :
  denotes h v p ->
  same_outcome (denotes h) (Store.getitem v key h).2 (getitem p key).
Proof.
  intros [ | b | z | f | s | vs ps Hall | l vs ps Hl Hall | l m pm Hl Hall]; try done.
  - simpl. rewrite run_bind. unfold Store.deref. by rewrite Hl.
  - simpl. rewrite run_bind. unfold Store.deref. rewrite Hl.
    destruct (Hall key) as [x y Hxy | ]; done.
Qed.

Lemma iterate_agree (h : Store.heap) (v : Store.value) (p : pyval) :
  denotes h v p ->
  same_outcome (fun items pitems =>
                  Forall2 (denotes h) items pitems \/
                  (exists s items', items = Store.VStr s :: items') /\
                  (exists s pitems', pitems = PyStr s :: pitems'))
               (Store.iterate v h).2 (py_iter p).
Proof.
  intros [ | b | z | f | s | vs ps Hall | l vs ps Hl Hall | l m pm Hl Hall]; try done.
  - simpl. destruct s as [ | c s]; simpl; [left; constructor | right; split; eauto].
  - simpl. by left.
  - simpl. rewrite run_bind. unfold Store.deref. rewrite Hl. simpl. by left.
  - simpl. rewrite run_bind. unfold Store.deref. rewrite Hl. simpl.
    destruct (map_to_list m) as [ | [k x] kvs] eqn:Hm;
      destruct (map_to_list pm) as [ | [k' y] kvs'] eqn:Hpm; simpl.
    + left. constructor.
    + apply map_to_list_empty_iff in Hm as ->.
      assert (Hk : (k', y) ∈ map_to_list pm) by (rewrite Hpm; left).
      apply elem_of_map_to_list in Hk. specialize (Hall k').
      rewrite Hk, lookup_empty in Hall. inversion Hall.
    + apply map_to_list_empty_iff in Hpm as ->.
      assert (Hk : (k, x) ∈ map_to_list m) by (rewrite Hm; left).
      apply elem_of_map_to_list in Hk. specialize (Hall k).
      rewrite Hk, lookup_empty in Hall. inversion Hall.
    + right. split; eauto.
Qed.

Lemma validate_dim_agree (h : Store.heap) (v : Store.value) (p : pyval) :
  denotes h v p -> same_ending (Store.validate_dim v h).2 (validate_dim p).
Proof.
  intros [ | b | z | f | s | vs ps Hall | l vs ps Hl Hall | l m pm Hl Hall]; try done.
  unfold Store.validate_dim, validate_dim. simpl. by destruct (0 <? z)%Z.
Qed.

Lemma for_each_agree {A B : Type} (body : A -> Store.M unit) (pbody : B -> result unit)
    (h : Store.heap) (xs : list A) (ys : list B) :
  (forall x, Store.read_only (body x)) ->
  Forall2 (fun x y => same_ending (body x h).2 (pbody y)) xs ys ->
  same_ending (Store.for_each body xs h).2 (for_each pbody ys).
Proof.
  intros Hro Hall. induction Hall as [ | x y xs ys Hxy _ IH]; [done | ].
  simpl. rewrite run_bind. specialize (Hro x h).
  destruct (body x h) as [h1 [ [] | e] ]; simpl in Hro; subst h1;
    destruct (pbody y) as [ [] | e']; done.
Qed.

Lemma py_in_agree (h : Store.heap) (v : Store.value) (p : pyval) (names : list string) :
  denotes h v p -> Store.py_in v names = py_in p names.
Proof. by intros []. Qed.

Lemma isinstance_basestring_agree (h : Store.heap) (v : Store.value) (p : pyval) :
  denotes h v p -> Store.isinstance_basestring v = isinstance_basestring p.
Proof. by intros []. Qed.

Lemma isinstance_list_tuple_agree (h : Store.heap) (v : Store.value) (p : pyval) :
  denotes h v p ->
  Store.isinstance_list_tuple v h = (h, Store.Return (isinstance_list_tuple p)).
Proof.
  intros [ | b | z | f | s | vs ps Hall | l vs ps Hl Hall | l m pm Hl Hall]; try done.
  - simpl. rewrite run_bind. unfold Store.deref. by rewrite Hl.
  - simpl. rewrite run_bind. unfold Store.deref. by rewrite Hl.
Qed.

Lemma validate_item_agree (h : Store.heap) (item : Store.value) (pitem : pyval) :
  denotes h item pitem ->
  same_ending (Store.validate_item item h).2 (validate_item pitem).
Proof.
  intros Hitem. unfold Store.validate_item, validate_item.
  rewrite run_bind.
  pose proof (getitem_agree h item pitem "name" Hitem) as Hn.
  pose proof (read_only_getitem item "name" h) as Hro.
  destruct (Store.getitem item "name" h) as [h1 [name | e] ]; simpl in Hro, Hn; subst h1;
    destruct (getitem pitem "name") as [pname | e']; try done.
  rewrite run_bind.
  pose proof (getitem_agree h item pitem "dtype" Hitem) as Hd.
  pose proof (read_only_getitem item "dtype" h) as Hro.
  destruct (Store.getitem item "dtype" h) as [h1 [dtype | e] ]; simpl in Hro, Hd; subst h1;
    destruct (getitem pitem "dtype") as [pdtype | e']; try done.
  rewrite run_bind.
  pose proof (getitem_agree h item pitem "shape" Hitem) as Hs.
  pose proof (read_only_getitem item "shape" h) as Hro.
  destruct (Store.getitem item "shape" h) as [h1 [shape | e] ]; simpl in Hro, Hs; subst h1;
    destruct (getitem pitem "shape") as [pshape | e']; try done.
  cbn beta iota delta [mbind result_bind].
  rewrite (py_in_agree _ _ _ _ Hd), (isinstance_basestring_agree _ _ _ Hn).
  destruct (negb (py_in pdtype ALLOWED_DTYPES)); [done | ].
  destruct (negb (isinstance_basestring pname)); [done | ].
  rewrite run_bind, (isinstance_list_tuple_agree _ _ _ Hs).
  destruct (isinstance_list_tuple pshape) eqn:Hseq; [ | done].
  cbn [negb]. rewrite run_bind.
  destruct Hs as [ | b | z | f | s | vs ps Hall | l vs ps Hl Hall | l m pm Hl Hall];
    try discriminate.
  - simpl. apply for_each_agree; [apply read_only_validate_dim | ].
    eapply Forall2_impl; [exact Hall | apply validate_dim_agree].
  - simpl. rewrite run_bind. unfold Store.deref. rewrite Hl.
    apply for_each_agree; [apply read_only_validate_dim | ].
    eapply Forall2_impl; [exact Hall | apply validate_dim_agree].
Qed.

(** The Tensor Spec Validator ends the same way in both embeddings. *)
Lemma validate_tensor_spec_agree (h : Store.heap) (spec : Store.value) (pspec : pyval) :
  denotes h spec pspec ->
  same_ending (Store.validate_tensor_spec spec h).2 (validate_tensor_spec pspec).
Proof.
  intros Hspec. unfold Store.validate_tensor_spec, validate_tensor_spec.
  rewrite run_bind.
  pose proof (iterate_agree h spec pspec Hspec) as Hit.
  pose proof (read_only_iterate spec h) as Hro.
  destruct (Store.iterate spec h) as [h1 [items | e] ]; simpl in Hro, Hit; subst h1;
    destruct (py_iter pspec) as [pitems | e']; try done.
  cbn beta iota delta [mbind result_bind].
  destruct Hit as [Hall | [(s & items' & ->) (s' & pitems' & ->)] ].
  - apply for_each_agree; [apply read_only_validate_item | ].
    eapply Forall2_impl; [exact Hall | apply validate_item_agree].
  - done.
Qed.

(** The Config Validator ends the same way in both embeddings. *)
Lemma validate_neuropod_config_agree (h : Store.heap) (config : Store.value)
    (pconfig : pyval) :
  denotes h config pconfig ->
  same_ending (Store.validate_neuropod_config config h).2 (validate_neuropod_config pconfig).
Proof.
  intros Hc. unfold Store.validate_neuropod_config, validate_neuropod_config.
  rewrite run_bind.
  pose proof (getitem_agree h config pconfig "name" Hc) as Hn.
  pose proof (read_only_getitem config "name" h) as Hro.
  destruct (Store.getitem config "name" h) as [h1 [name | e] ]; simpl in Hro, Hn; subst h1;
    destruct (getitem pconfig "name") as [pname | e']; try done.
  rewrite run_bind.
  pose proof (getitem_agree h config pconfig "platform" Hc) as Hp.
  pose proof (read_only_getitem config "platform" h) as Hro.
  destruct (Store.getitem config "platform" h) as [h1 [platform | e] ];
    simpl in Hro, Hp; subst h1;
    destruct (getitem pconfig "platform") as [pplatform | e']; try done.
  cbn beta iota delta [mbind result_bind].
  rewrite (isinstance_basestring_agree _ _ _ Hn), (isinstance_basestring_agree _ _ _ Hp).
  destruct (negb (isinstance_basestring pname)); [done | ].
  destruct (negb (isinstance_basestring pplatform)); [done | ].
  rewrite run_bind.
  pose proof (getitem_agree h config pconfig "input_spec" Hc) as Hi.
  pose proof (read_only_getitem config "input_spec" h) as Hro.
  destruct (Store.getitem config "input_spec" h) as [h1 [input_spec | e] ];
    simpl in Hro, Hi; subst h1;
    destruct (getitem pconfig "input_spec") as [pinput | e']; try done.
  cbn beta iota delta [mbind result_bind]. rewrite run_bind.
  pose proof (validate_tensor_spec_agree h _ _ Hi) as Hvi.
  pose proof (read_only_validate_tensor_spec input_spec h) as Hro.
  destruct (Store.validate_tensor_spec input_spec h) as [h1 [ [] | e] ];
    simpl in Hro, Hvi; subst h1;
    destruct (validate_tensor_spec pinput) as [ [] | e']; try done.
  cbn beta iota delta [mbind result_bind]. rewrite run_bind.
  pose proof (getitem_agree h config pconfig "output_spec" Hc) as Ho.
  pose proof (read_only_getitem config "output_spec" h) as Hro.
  destruct (Store.getitem config "output_spec" h) as [h1 [output_spec | e] ];
    simpl in Hro, Ho; subst h1;
    destruct (getitem pconfig "output_spec") as [poutput | e']; try done.
  by apply validate_tensor_spec_agree.
Qed.

Lemma getitem_unchanged (h hk : Store.heap) (v : Store.value) (p : pyval) (key : string) :
  denotes h v p -> unchanged h hk ->
  Store.getitem v key hk = (hk, (Store.getitem v key h).2).
Proof.
  intros [ | b | z | f | s | vs ps Hall | l vs ps Hl Hall | l m pm Hl Hall] Hframe; try done.
  - simpl. rewrite !run_bind. unfold Store.deref. by rewrite Hl, (Hframe _ _ Hl).
  - simpl. rewrite !run_bind. unfold Store.deref. rewrite Hl, (Hframe _ _ Hl).
    by destruct (m !! key).
Qed.

Lemma iterate_unchanged (h hk : Store.heap) (v : Store.value) (p : pyval) :
  denotes h v p -> unchanged h hk ->
  Store.iterate v hk = (hk, (Store.iterate v h).2).
Proof.
  intros [ | b | z | f | s | vs ps Hall | l vs ps Hl Hall | l m pm Hl Hall] Hframe; try done.
  - simpl. rewrite !run_bind. unfold Store.deref. by rewrite Hl, (Hframe _ _ Hl).
  - simpl. rewrite !run_bind. unfold Store.deref. by rewrite Hl, (Hframe _ _ Hl).
Qed.

Lemma built_denotes (h h' : Store.heap) (t : Store.loc) (out : Store.value) (pout : pyval) :
  unchanged h h' -> built h h' t out pout -> denotes h' out pout.
Proof.
  intros Hframe (d & name & shape & c & pname & pshape & -> & _ & Hd & Hn & Hs & ->).
  eapply denotes_dict; [exact Hd | ].
  intros k.
  destruct (decide (k = "name")) as [-> | Hk1].
  { rewrite !lookup_insert_eq. constructor. by eapply denotes_mono. }
  rewrite !(lookup_insert_ne _ "name") by done.
  destruct (decide (k = "dtype")) as [-> | Hk2].
  { rewrite !lookup_insert_eq. constructor. constructor. }
  rewrite !(lookup_insert_ne _ "dtype") by done.
  destruct (decide (k = "shape")) as [-> | Hk3].
  { rewrite !lookup_insert_eq. constructor. by eapply denotes_mono. }
  rewrite !(lookup_insert_ne _ "shape") by done.
  rewrite !lookup_empty. constructor.
Qed.

Section Agreement.

Variable nps : Store.heap -> Store.value -> option string.
Variable np : pyval -> option string.
Hypothesis Hnp : resolvers_agree nps np.

Lemma canonicalize_step_agree (h hk h1 : Store.heap) (t : Store.loc)
    (item : Store.value) (pitem : pyval) (outs : list Store.value)
    (r : Store.outcome unit) :
  denotes h item pitem ->
  unchanged h hk ->
  hk !! t = Some (Store.OList outs) ->
  Store.canonicalize_step nps t item hk = (h1, r) ->
  match r, canonicalize_item np pitem with
  | Store.Return _, Ok pout =>
      exists d name shape canonical pname pshape,
        hk !! d = None /\
        h1 = <[t := Store.OList (outs ++ [Store.VRef d])]>
               (<[d := Store.tensor_item name (Store.VStr canonical) shape]> hk) /\
        denotes h name pname /\ denotes h shape pshape /\
        pout = tensor_item pname (PyStr canonical) pshape
  | Store.Throw e, Raise e' => exn_class e = error_class e'
  | _, _ => False
  end.
Proof.
  intros Hitem Hframe Htk Hrun.
  unfold Store.canonicalize_step in Hrun. unfold canonicalize_item.
  rewrite run_bind, (getitem_unchanged h hk _ _ "name" Hitem Hframe) in Hrun.
  pose proof (getitem_agree h item pitem "name" Hitem) as Hn.
  destruct (Store.getitem item "name" h).2 as [name | e];
    destruct (getitem pitem "name") as [pname | e']; simpl in Hn; try done.
  2: { by injection Hrun as <- <-. }
  rewrite run_bind, (getitem_unchanged h hk _ _ "dtype" Hitem Hframe) in Hrun.
  pose proof (getitem_agree h item pitem "dtype" Hitem) as Hd.
  destruct (Store.getitem item "dtype" h).2 as [dtype | e];
    destruct (getitem pitem "dtype") as [pdtype | e']; simpl in Hd; try done.
  2: { by injection Hrun as <- <-. }
  cbn beta iota delta [mbind result_bind].
  rewrite run_bind in Hrun.
  unfold Store.canonicalize_dtype in Hrun at 1. unfold canonicalize_dtype.
  rewrite (Hnp hk dtype pdtype) in Hrun by (by eapply denotes_mono).
  destruct (np pdtype) as [canonical | ].
  2: { by injection Hrun as <- <-. }
  rewrite run_bind, (getitem_unchanged h hk _ _ "shape" Hitem Hframe) in Hrun.
  pose proof (getitem_agree h item pitem "shape" Hitem) as Hs.
  destruct (Store.getitem item "shape" h).2 as [shape | e];
    destruct (getitem pitem "shape") as [pshape | e']; simpl in Hs; try done.
  2: { by injection Hrun as <- <-. }
  cbn beta iota delta [mbind result_bind].
  rewrite run_bind in Hrun. unfold Store.alloc, Store.append in Hrun.
  set (d := fresh (dom hk)) in *.
  assert (Hfresh : hk !! d = None) by (apply not_elem_of_dom, is_fresh).
  assert (Hdt : d <> t) by congruence.
  rewrite lookup_insert_ne in Hrun by done. rewrite Htk in Hrun.
  injection Hrun as <- <-.
  exists d, name, shape, canonical, pname, pshape. auto.
Qed.

Lemma canonicalize_loop_agree (h : Store.heap) (t : Store.loc)
    (items : list Store.value) (pitems : list pyval) :
  h !! t = None ->
  Forall2 (denotes h) items pitems ->
  forall (hk h' : Store.heap) (outs : list Store.value) (pdone : list pyval)
         (r : Store.outcome unit),
    unchanged h hk ->
    hk !! t = Some (Store.OList outs) ->
    Forall2 (built h hk t) outs pdone ->
    Store.for_each (Store.canonicalize_step nps t) items hk = (h', r) ->
    match r, collect (canonicalize_item np) pitems with
    | Store.Return _, Ok pouts =>
        unchanged h h' /\
        exists outs', h' !! t = Some (Store.OList outs') /\
                      Forall2 (built h h' t) outs' (pdone ++ pouts)
    | Store.Throw e, Raise e' => exn_class e = error_class e'
    | _, _ => False
    end.
Proof.
  intros Ht Hall. induction Hall as [ | item pitem items pitems Hitem _ IH];
    intros hk h' outs pdone r Hframe Htk Hbuilt Hrun.
  - injection Hrun as <- <-. simpl. split; [done | ]. exists outs. by rewrite app_nil_r.
  - cbn [Store.for_each collect] in *. rewrite run_bind in Hrun.
    destruct (Store.canonicalize_step nps t item hk) as [h1 r1] eqn:Hstep.
    apply (canonicalize_step_agree h _ _ _ _ pitem _ _ Hitem Hframe Htk) in Hstep.
    destruct r1 as [ [] | e]; destruct (canonicalize_item np pitem) as [pout | e'];
      try done.
    2: { by injection Hrun as <- <-. }
    destruct Hstep as (d & name & shape & canonical & pname & pshape
                       & Hfresh & -> & Hn & Hs & ->).
    assert (Hdt : d <> t) by congruence.
    set (hk2 := <[t := Store.OList (outs ++ [Store.VRef d])]>
                  (<[d := Store.tensor_item name (Store.VStr canonical) shape]> hk)) in *.
    assert (Hframe2 : unchanged h hk2).
    { intros l o Hl. unfold hk2.
      rewrite lookup_insert_ne by congruence.
      pose proof (Hframe l o Hl). rewrite lookup_insert_ne by congruence. done. }
    assert (Htk2 : hk2 !! t = Some (Store.OList (outs ++ [Store.VRef d])))
      by apply lookup_insert_eq.
    assert (Hbuilt2 : Forall2 (built h hk2 t) (outs ++ [Store.VRef d])
                        (pdone ++ [tensor_item pname (PyStr canonical) pshape])).
    { apply Forall2_app.
      - eapply Forall2_impl; [exact Hbuilt | ].
        intros out pout (d' & n' & s' & c' & pn' & ps' & -> & Hd't & Hobj & Hn' & Hs' & ->).
        exists d', n', s', c', pn', ps'. repeat split; try done.
        unfold hk2. rewrite lookup_insert_ne by done.
        rewrite lookup_insert_ne by congruence. done.
      - constructor; [ | constructor].
        exists d, name, shape, canonical, pname, pshape. repeat split; try done.
        unfold hk2. rewrite lookup_insert_ne by done. apply lookup_insert_eq. }
    specialize (IH hk2 h' _ _ r Hframe2 Htk2 Hbuilt2 Hrun).
    cbn beta iota delta [mbind result_bind].
    destruct r as [ [] | e]; destruct (collect _ pitems) as [pouts | e']; simpl; try done.
    by rewrite <- app_assoc in IH.
Qed.

(** What [canonicalize_tensor_spec] does over the store is what it does
    over values: the two calls both return or both raise, and the list
    returned over the store stands, in the heap after the call, for the
    list returned over values. *)
Lemma canonicalize_tensor_spec_agree (h h' : Store.heap) (spec : Store.value)
    (pspec : pyval) (r : Store.outcome Store.value) :
  denotes h spec pspec ->
  Store.canonicalize_tensor_spec nps spec h = (h', r) ->
  same_outcome (denotes h') r (canonicalize_tensor_spec np pspec).
Proof.
  intros Hspec Hrun.
  unfold Store.canonicalize_tensor_spec in Hrun. unfold canonicalize_tensor_spec.
  rewrite run_bind in Hrun. unfold Store.alloc in Hrun.
  set (t := fresh (dom h)) in *.
  assert (Hfresh : h !! t = None) by (apply not_elem_of_dom, is_fresh).
  set (h1 := <[t := Store.OList []]> h) in *.
  assert (Hframe : unchanged h h1).
  { intros l o Hl. unfold h1. rewrite lookup_insert_ne by congruence. done. }
  assert (Ht1 : h1 !! t = Some (Store.OList [])) by apply lookup_insert_eq.
  rewrite run_bind, (iterate_unchanged h h1 _ _ Hspec Hframe) in Hrun.
  pose proof (iterate_agree h spec pspec Hspec) as Hit.
  destruct (Store.iterate spec h).2 as [items | e];
    destruct (py_iter pspec) as [pitems | e']; simpl in Hit; try done.
  2: { by injection Hrun as <- <-. }
  cbn beta iota delta [mbind result_bind].
  rewrite run_bind in Hrun.
  destruct (Store.for_each _ items h1) as [h2 r2] eqn:Hloop.
  destruct Hit as [Hall | [(s & items' & ->) (s' & pitems' & ->)] ].
  - pose proof (canonicalize_loop_agree h t items pitems Hfresh Hall h1 h2 [] [] r2
                  Hframe Ht1 ltac:(constructor) Hloop) as Hagree.
    destruct r2 as [ [] | e]; destruct (collect _ pitems) as [pouts | e'];
      try done; injection Hrun as <- <-; [ | done].
    destruct Hagree as (Hframe' & outs' & Ht' & Hbuilt). simpl.
    eapply denotes_list; [exact Ht' | ].
    eapply Forall2_impl; [exact Hbuilt | ].
    intros out pout. by apply built_denotes.
  - injection Hloop as <- <-. by injection Hrun as <- <-.
Qed.

End Agreement.


(** The table of the resolver is the same over the store and over
    values. *)
Lemma numpy_resolvers_agree : resolvers_agree Store.numpy_dtype_name numpy_dtype_name.
Proof. by intros h v p []. Qed.

(** ** When canonicalisation returns *)

(** Over values: a sequence of items that have their fields and a dtype the
    resolver knows is canonicalised, item by item. *)
Lemma canonicalize_tensor_spec_returns (np_dtype_name : pyval -> option string)
    (spec : pyval) (items : list pyval) :
  py_iter spec = Ok items ->
  Forall (resolvable_item np_dtype_name) items ->
  exists outs,
    canonicalize_tensor_spec np_dtype_name spec = Ok (PyList outs) /\
    Forall2 (canonical_of np_dtype_name) items outs.
Proof.
  intros Hit Hall.
  assert (Houts : exists outs, Forall2 (canonical_of np_dtype_name) items outs).
  { clear Hit. induction Hall as [ | item items Hitem _ IH].
    - exists []. constructor.
    - destruct IH as (outs & IH).
      destruct Hitem as (name & dtype & shape & canonical & Hf & Hnp).
      exists (tensor_item name (PyStr canonical) shape :: outs).
      constructor; [ | exact IH]. by exists name, dtype, shape, canonical. }
  destruct Houts as (outs & Houts). exists outs. split; [ | exact Houts].
  apply canonicalize_tensor_spec_Ok. by exists items, outs.
Qed.

Section StoreReturns.

Variable np_dtype_name : Store.heap -> Store.value -> option string.

Lemma getitem_stored (h : Store.heap) (l : Store.loc) (entries : gmap string Store.value)
    (key : string) (x : Store.value) :
  h !! l = Some (Store.ODict entries) ->
  entries !! key = Some x ->
  Store.getitem (Store.VRef l) key h = (h, Store.Return x).
Proof.
  intros Hl Hk. simpl. rewrite run_bind. unfold Store.deref. by rewrite Hl, Hk.
Qed.

(** The loop goes through every item when each is a dict of the heap the
    call started from with a dtype the resolver knows. *)
Lemma canonicalize_loop_returns (h : Store.heap) (t : Store.loc)
    (items : list Store.value) :
  h !! t = None ->
  Forall (stored_resolvable_item np_dtype_name h) items ->
  forall (hk : Store.heap) (outs : list Store.value),
    unchanged h hk ->
    hk !! t = Some (Store.OList outs) ->
    exists h',
      Store.for_each (Store.canonicalize_step np_dtype_name t) items hk
      = (h', Store.Return tt).
Proof.
  intros Ht Hall. induction Hall as [ | item items Hitem _ IH]; intros hk outs Hframe Htk.
  - by exists hk.
  - destruct Hitem as (name & dtype & shape & (l & entries & -> & Hl & Hn & Hd & Hs) & Hnp).
    destruct (Hnp hk Hframe) as (canonical & Hc).
    pose proof (Hframe _ _ Hl) as Hlk.
    simpl. rewrite run_bind. unfold Store.canonicalize_step.
    rewrite run_bind, (getitem_stored _ _ _ _ _ Hlk Hn).
    rewrite run_bind, (getitem_stored _ _ _ _ _ Hlk Hd).
    rewrite run_bind. unfold Store.canonicalize_dtype at 1. rewrite Hc.
    rewrite run_bind, (getitem_stored _ _ _ _ _ Hlk Hs).
    rewrite run_bind. unfold Store.alloc, Store.append.
    set (d := fresh (dom hk)).
    assert (Hfresh : hk !! d = None) by (apply not_elem_of_dom, is_fresh).
    assert (Hdt : d <> t) by congruence.
    rewrite lookup_insert_ne by done. rewrite Htk.
    apply (IH _ (outs ++ [Store.VRef d])%list); [ | apply lookup_insert_eq].
    intros l' o Hl'. pose proof (Hframe _ _ Hl') as Hk'.
    rewrite lookup_insert_ne by congruence.
    rewrite lookup_insert_ne by congruence. done.
Qed.

(** Over the store: the call returns when the sequence can be iterated
    and every item is a dict of the heap with a dtype the resolver
    knows. *)
Lemma canonicalize_tensor_spec_store_returns (spec : Store.value) (h : Store.heap)
    (items : list Store.value) :
  Store.iterate spec h = (h, Store.Return items) ->
  Forall (stored_resolvable_item np_dtype_name h) items ->
  exists h' t,
    Store.canonicalize_tensor_spec np_dtype_name spec h = (h', Store.Return (Store.VRef t)).
Proof.
  intros Hit Hall. unfold Store.canonicalize_tensor_spec.
  rewrite run_bind. unfold Store.alloc.
  set (t := fresh (dom h)).
  assert (Hfresh : h !! t = None) by (apply not_elem_of_dom, is_fresh).
  set (h1 := <[t := Store.OList []]> h).
  assert (Hframe : unchanged h h1).
  { intros l o Hl. unfold h1. rewrite lookup_insert_ne by congruence. done. }
  assert (Ht1 : h1 !! t = Some (Store.OList [])) by apply lookup_insert_eq.
  rewrite run_bind.
  rewrite (iterate_run spec h h1 items Hit) by (intros l o _; apply Hframe).
  rewrite run_bind.
  destruct (canonicalize_loop_returns h t items Hfresh Hall h1 [] Hframe Ht1)
    as (h' & ->).
  by exists h', t.
Qed.

End StoreReturns.

(** ** Claim about what canonicalisation changes *)

(** C10.  [canonicalize_tensor_spec] returns a list with one dict for
    each item of the sequence, in order, whose name and shape are those
    of the item and whose dtype is the resolved name.  Over the store: the
    list and the dicts are new objects, the name and the shape they hold
    are the very values the items hold, and every object that existed
    before the call, the input sequence and its items among them, is
    unchanged after it, also when the call throws.  The two validators
    give back the heap they were given.  The call does return, over values
    and over the store, whenever the sequence can be iterated and each of
    its items has the three fields and a dtype the resolver knows. *)
Theorem canonicalize_changes_only_dtype :
  (forall np_dtype_name spec cspec,
     canonicalize_tensor_spec np_dtype_name spec = Ok cspec ->
     exists items outs,
       py_iter spec = Ok items /\ cspec = PyList outs /\
       length outs = length items /\
       Forall2 (fun item out =>
                  exists name dtype shape canonical,
                    has_fields item name dtype shape /\
                    out = tensor_item name (PyStr canonical) shape) items outs)
  /\ (forall np_dtype_name spec h h' r,
        Store.canonicalize_tensor_spec np_dtype_name spec h = (h', r) ->
        (forall l o, h !! l = Some o -> h' !! l = Some o)
        /\ (forall out, r = Store.Return out ->
            exists t items outs,
              out = Store.VRef t /\ h !! t = None /\
              h' !! t = Some (Store.OList outs) /\
              Store.iterate spec h' = (h', Store.Return items) /\
              length outs = length items /\
              Forall2 (Store.transformed_from h h') items outs))
  /\ (forall spec h, (Store.validate_tensor_spec spec h).1 = h)
  /\ (forall config h, (Store.validate_neuropod_config config h).1 = h)
  /\ (forall np_dtype_name spec items,
        py_iter spec = Ok items ->
        Forall (resolvable_item np_dtype_name) items ->
        exists outs,
          canonicalize_tensor_spec np_dtype_name spec = Ok (PyList outs) /\
          length outs = length items /\
          Forall2 (fun item out =>
                     exists name dtype shape canonical,
                       has_fields item name dtype shape /\
                       np_dtype_name dtype = Some canonical /\
                       out = tensor_item name (PyStr canonical) shape) items outs)
  /\ (forall np_dtype_name spec h items,
        Store.iterate spec h = (h, Store.Return items) ->
        Forall (stored_resolvable_item np_dtype_name h) items ->
        exists h' t outs,
          Store.canonicalize_tensor_spec np_dtype_name spec h
          = (h', Store.Return (Store.VRef t)) /\
          h !! t = None /\
          h' !! t = Some (Store.OList outs) /\
          length outs = length items /\
          Forall2 (Store.transformed_from h h') items outs /\
          (forall l o, h !! l = Some o -> h' !! l = Some o)).
Proof.
  split; [ | split; [ | split; [ | split; [ | split] ] ] ].
  - intros np_dtype_name spec cspec Hc.
    apply canonicalize_tensor_spec_Ok in Hc as (items & outs & Hit & -> & H).
    exists items, outs. repeat split; try done.
    + symmetry. by eapply Forall2_length.
    + eapply Forall2_impl; [exact H | ].
      intros item out (name & dtype & shape & canonical & Hf & _ & ->). eauto 6.
  - intros np_dtype_name spec h h' r Hrun.
    apply canonicalize_tensor_spec_run in Hrun as [Hframe Hok].
    split; [exact Hframe | ].
    intros out Hr. destruct (Hok out Hr) as (t & items & outs & ? & ? & ? & ? & Hrel).
    exists t, items, outs. repeat split; try done.
    symmetry. by eapply Forall2_length.
  - intros spec. apply read_only_validate_tensor_spec.
  - intros config. apply read_only_validate_neuropod_config.
  - intros np_dtype_name spec items Hit Hall.
    destruct (canonicalize_tensor_spec_returns _ _ _ Hit Hall) as (outs & Hc & Hrel).
    exists outs. split; [exact Hc | ]. split.
    + symmetry. by eapply Forall2_length.
    + exact Hrel.
  - intros np_dtype_name spec h items Hit Hall.
    destruct (canonicalize_tensor_spec_store_returns _ _ _ _ Hit Hall) as (h' & t & Hrun).
    destruct (canonicalize_tensor_spec_run _ _ _ _ _ Hrun) as [Hframe Hok].
    destruct (Hok _ eq_refl) as (t' & items' & outs & [= <-] & Hfresh & Ht & Hit' & Hrel).
    assert (Hitems : Store.iterate spec h' = (h', Store.Return items)).
    { apply (iterate_run spec h h' items Hit). intros l o _. apply Hframe. }
    rewrite Hit' in Hitems. injection Hitems as ->.
    exists h', t, outs. repeat split; try done.
    symmetry. by eapply Forall2_length.
Qed.

(** A run of [canonicalize_changes_only_dtype] on a heap that holds the
    list [[{"name": "x", "dtype": "double", "shape": (None,)}]]: the call
    returns a new list of one item, and the dict of the input is unchanged
    after it. *)
Lemma canonicalize_changes_only_dtype_witness :
  let item := Store.tensor_item (Store.VStr "x") (Store.VStr "double")
                                (Store.VTuple [Store.VNone]) in
  let h : Store.heap := <[0%nat := Store.OList [Store.VRef 1]]> (<[1%nat := item]> ∅) in
  exists h' t outs,
    Store.canonicalize_tensor_spec Store.numpy_dtype_name (Store.VRef 0) h
    = (h', Store.Return (Store.VRef t)) /\
    h !! t = None /\
    h' !! t = Some (Store.OList outs) /\
    length outs = 1%nat /\
    h' !! 1%nat = Some item.
Proof.
  intros item h.
  destruct canonicalize_changes_only_dtype as (_ & _ & _ & _ & _ & Hreturns).
  destruct (Hreturns Store.numpy_dtype_name (Store.VRef 0) h [Store.VRef 1])
    as (h' & t & outs & Hrun & Hfresh & Ht & Hlen & _ & Hframe).
  - reflexivity.
  - constructor; [ | constructor].
    exists (Store.VStr "x"), (Store.VStr "double"), (Store.VTuple [Store.VNone]).
    split.
    + eexists 1%nat, _. repeat split; reflexivity.
    + intros hk _. by eexists.
  - exists h', t, outs. repeat split; try done. by apply Hframe.
Defined.

(** * Further properties of the module *)

(** ** What the validators accept *)

Lemma dims_pass (dims : list pyval) :
  flat_map dim_violations dims = [] <->
  Forall (fun dim => validate_dim dim = Ok tt) dims.
Proof.
  induction dims as [ | dim dims IH]; simpl.
  - split; [constructor | done].
  - rewrite Forall_cons, <- IH, validate_dim_is_dimension, first_violation_Ok.
    split.
    + intros H. by apply app_eq_nil in H.
    + intros [-> ->]. done.
Qed.

Lemma validate_item_valid (item : pyval) :
  validate_item item = Ok tt <-> valid_item item.
Proof.
  rewrite validate_item_violations, first_violation_Ok, item_violations_nil.
  unfold valid_item. split.
  - intros (name & dtype & shape & dims & Hf & Hin & Hshape & Hdims).
    exists name, dtype, shape, dims.
    split; [exact Hf | split; [exact Hin | split; [exact Hshape | by apply dims_pass] ] ].
  - intros (name & dtype & shape & dims & Hf & Hin & Hshape & Hdims).
    exists name, dtype, shape, dims.
    split; [exact Hf | split; [exact Hin | split; [exact Hshape | by apply dims_pass] ] ].
Qed.

Lemma for_each_Ok {A : Type} (body : A -> result unit) (l : list A) :
  for_each body l = Ok tt <-> Forall (fun x => body x = Ok tt) l.
Proof.
  induction l as [ | x l IH]; simpl.
  - split; [constructor | done].
  - rewrite Forall_cons, <- IH. destruct (body x) as [ [] | e]; simpl.
    + tauto.
    + split; [discriminate | intros [? _]; discriminate].
Qed.

Lemma validate_tensor_spec_valid (spec : pyval) :
  validate_tensor_spec spec = Ok tt <->
  exists items, py_iter spec = Ok items /\ Forall valid_item items.
Proof.
  unfold validate_tensor_spec.
  destruct (py_iter spec) as [items | e]; simpl.
  - rewrite for_each_Ok. split.
    + intros H. exists items. split; [done | ].
      eapply Forall_impl; [exact H | ]. intros x. apply validate_item_valid.
    + intros (items' & [= <-] & H).
      eapply Forall_impl; [exact H | ]. intros x. apply validate_item_valid.
  - split; [discriminate | intros (items & [=] & _)].
Qed.

Lemma validate_dim_accepted (dim : pyval) :
  validate_dim dim = Ok tt <-> accepted_dimension dim.
Proof.
  rewrite validate_dim_is_dimension, first_violation_Ok.
  unfold accepted_dimension. rewrite <- is_dimension_true. unfold dim_violations.
  destruct (is_dimension dim); split; congruence.
Qed.

Lemma getitem_Ok (v x : pyval) (key : string) :
  getitem v key = Ok x <-> exists d, v = PyDict d /\ d !! key = Some x.
Proof.
  split.
  - destruct v; simpl; try discriminate.
    destruct (d !! key) as [y | ] eqn:Hk; [ | discriminate].
    intros [= <-]. by exists d.
  - intros (d & -> & Hk). simpl. by rewrite Hk.
Qed.

Lemma valid_item_well_formed (item : pyval) :
  valid_item item <-> well_formed_item item.
Proof.
  split.
  - intros (name & dtype & shape & dims & (Hn & Hd & Hs) & Hin & Hshape & Hdims).
    apply getitem_Ok in Hn as (d & -> & Hn).
    apply getitem_Ok in Hd as (d' & [= <-] & Hd).
    apply getitem_Ok in Hs as (d' & [= <-] & Hs).
    exists d, name, dtype, dims.
    split; [reflexivity | ]. split; [exact Hn | ]. split; [exact Hd | ].
    split; [exact Hin | ]. split.
    + destruct Hshape as [-> | ->]; [by left | by right].
    + eapply Forall_impl; [exact Hdims | ]. intros dim. apply validate_dim_accepted.
  - intros (d & name & dtype & dims & -> & Hn & Hd & Hin & Hshape & Hdims).
    assert (Hs : exists shape, d !! "shape" = Some shape /\
                               (shape = PyList dims \/ shape = PyTuple dims)).
    { destruct Hshape as [Hs | Hs]; eexists; (split; [exact Hs | ]); [by left | by right]. }
    destruct Hs as (shape & Hs & Hshape').
    exists name, dtype, shape, dims.
    split; [repeat split; apply getitem_Ok; by exists d | ].
    split; [exact Hin | ]. split; [exact Hshape' | ].
    eapply Forall_impl; [exact Hdims | ]. intros dim. apply validate_dim_accepted.
Qed.

(** X1.  The Tensor Spec Validator returns normally exactly for a sequence
    it can go through whose items are all dicts with a string name, an
    allowed dtype, and for shape a list or tuple in which every dimension
    is [None], a string, or an integer above zero that is no boolean. *)
Theorem tensor_spec_validator_accepts (spec : pyval) :
  validate_tensor_spec spec = Ok tt <->
  exists items,
    py_iter spec = Ok items /\
    Forall (fun item =>
              exists d name dtype dims,
                item = PyDict d /\
                d !! "name" = Some (PyStr name) /\
                d !! "dtype" = Some (PyStr dtype) /\
                In dtype ALLOWED_DTYPES /\
                (d !! "shape" = Some (PyList dims) \/
                 d !! "shape" = Some (PyTuple dims)) /\
                Forall (fun dim =>
                          dim = PyNone \/ (exists s, dim = PyStr s) \/
                          (exists z, dim = PyInt z /\ (0 < z)%Z)) dims)
           items.
Proof.
  rewrite validate_tensor_spec_valid. split.
  - intros (items & Hit & Hall). exists items. split; [exact Hit | ].
    eapply Forall_impl; [exact Hall | ]. intros item. apply valid_item_well_formed.
  - intros (items & Hit & Hall). exists items. split; [exact Hit | ].
    eapply Forall_impl; [exact Hall | ]. intros item Hitem.
    by apply valid_item_well_formed.
Qed.

(** Runs of [tensor_spec_validator_accepts]: the docstring's example
    passes, and a shape that holds 0 and [True] does not. *)
Lemma tensor_spec_validator_accepts_witness :
  validate_tensor_spec
    (PyList [tensor_item (PyStr "x") (PyStr "float32") (PyTuple [PyNone])]) = Ok tt
  /\ validate_tensor_spec
       (PyList [tensor_item (PyStr "x") (PyStr "float32")
                            (PyList [PyInt 0; PyBool true])]) <> Ok tt.
Proof.
  split.
  - apply tensor_spec_validator_accepts. eexists. split; [reflexivity | ].
    constructor; [ | constructor].
    eexists _, "x", "float32", [PyNone].
    split; [reflexivity | ]. split; [reflexivity | ]. split; [reflexivity | ].
    split; [simpl; tauto | ]. split; [by right | ].
    constructor; [by left | constructor].
  - intros Hok. apply tensor_spec_validator_accepts in Hok as (items & [= <-] & Hall).
    inversion Hall as [ | ? ? (d & name & dtype & dims & Hitem & _ & _ & _ & Hshape & Hdims) _];
      subst.
    unfold tensor_item in Hitem. injection Hitem as <-.
    rewrite lookup_insert_ne in Hshape by done.
    rewrite lookup_insert_ne in Hshape by done.
    rewrite lookup_insert_eq in Hshape.
    assert (Hd : dims = [PyInt 0; PyBool true]).
    { destruct Hshape as [Hs | Hs]; congruence. }
    subst dims. inversion Hdims as [ | ? ? Hzero _]; subst.
    destruct Hzero as [ [=] | [ (s & [=]) | (z & [= <-] & Hz) ] ]. lia.
Defined.

Lemma validate_after_valid_prefix (before after : list pyval) (item : pyval) (e : error) :
  validate_tensor_spec (PyList before) = Ok tt ->
  validate_item item = Raise e ->
  validate_tensor_spec (PyList (before ++ item :: after)) = Raise e.
Proof.
  rewrite !validate_tensor_spec_list, all_violations_app, first_violation_Ok.
  intros -> Hitem. rewrite validate_item_violations in Hitem.
  change (all_violations (item :: after))
    with (item_violations item ++ all_violations after)%list.
  simpl. by destruct (item_violations item).
Qed.

(** X2.  Under items that pass, an item that is not a dict raises the
    type error for subscripting it, and a dict that lacks a field raises
    [KeyError] for the first of name, dtype, shape it lacks: the three
    fields are read before any of them is checked, so a missing shape is
    reported whatever the name and the dtype are. *)
Theorem validator_reads_fields_first (before after : list pyval) (item : pyval) :
  validate_tensor_spec (PyList before) = Ok tt ->
  ((forall d, item <> PyDict d) ->
   validate_tensor_spec (PyList (before ++ item :: after))
   = Raise (NotSubscriptable item))
  /\ (forall d, item = PyDict d -> d !! "name" = None ->
      validate_tensor_spec (PyList (before ++ item :: after)) = Raise (KeyError "name"))
  /\ (forall d, item = PyDict d -> is_Some (d !! "name") -> d !! "dtype" = None ->
      validate_tensor_spec (PyList (before ++ item :: after)) = Raise (KeyError "dtype"))
  /\ (forall d, item = PyDict d -> is_Some (d !! "name") -> is_Some (d !! "dtype") ->
      d !! "shape" = None ->
      validate_tensor_spec (PyList (before ++ item :: after)) = Raise (KeyError "shape")).
Proof.
  intros Hbefore. repeat split.
  - intros Hnd. apply validate_after_valid_prefix; [done | ].
    destruct item; try reflexivity. by destruct (Hnd d).
  - intros d -> Hn. apply validate_after_valid_prefix; [done | ].
    unfold validate_item. simpl. by rewrite Hn.
  - intros d -> [n Hn] Hd. apply validate_after_valid_prefix; [done | ].
    unfold validate_item. simpl. by rewrite Hn, Hd.
  - intros d -> [n Hn] [dt Hd] Hs. apply validate_after_valid_prefix; [done | ].
    unfold validate_item. simpl. by rewrite Hn, Hd, Hs.
Qed.

(** A run of [validator_reads_fields_first]: the second item has a name
    that is no string and a dtype that is not allowed, and what is
    reported is that it has no shape. *)
Lemma validator_reads_fields_first_witness :
  validate_tensor_spec
    (PyList ([tensor_item (PyStr "x") (PyStr "int8") (PyList [])] ++
             PyDict (<["name" := PyInt 1]> (<["dtype" := PyStr "float16"]> ∅)) :: []))
  = Raise (KeyError "shape").
Proof.
  destruct (validator_reads_fields_first
              [tensor_item (PyStr "x") (PyStr "int8") (PyList [])] []
              (PyDict (<["name" := PyInt 1]> (<["dtype" := PyStr "float16"]> ∅))))
    as (_ & _ & _ & H); [reflexivity | ].
  apply (H _ eq_refl); [by eexists | by eexists | reflexivity].
Defined.

(** X3.  The Config Validator reads name and platform before it checks
    either, and each spec sequence only when it comes to it: a config
    without a platform raises [KeyError] for it even when its name is no
    string, a missing input_spec is noticed only under a string name and
    platform, a missing output_spec only once input_spec has passed.  A
    config that is not a dict raises the type error for subscripting
    it. *)
Theorem config_validator_missing_keys (config : pyval) :
  ((forall d, config <> PyDict d) ->
   validate_neuropod_config config = Raise (NotSubscriptable config))
  /\ (forall d, config = PyDict d -> d !! "name" = None ->
      validate_neuropod_config config = Raise (KeyError "name"))
  /\ (forall d, config = PyDict d -> is_Some (d !! "name") -> d !! "platform" = None ->
      validate_neuropod_config config = Raise (KeyError "platform"))
  /\ (forall d name platform, config = PyDict d ->
      d !! "name" = Some (PyStr name) -> d !! "platform" = Some (PyStr platform) ->
      d !! "input_spec" = None ->
      validate_neuropod_config config = Raise (KeyError "input_spec"))
  /\ (forall d name platform input_spec, config = PyDict d ->
      d !! "name" = Some (PyStr name) -> d !! "platform" = Some (PyStr platform) ->
      d !! "input_spec" = Some input_spec ->
      d !! "output_spec" = None ->
      validate_neuropod_config config =
      (validate_tensor_spec input_spec ≫= fun _ => Raise (KeyError "output_spec"))).
Proof.
  repeat split.
  - intros Hnd. destruct config; try reflexivity. by destruct (Hnd d).
  - intros d -> Hn. unfold validate_neuropod_config. simpl. by rewrite Hn.
  - intros d -> [n Hn] Hp. unfold validate_neuropod_config. simpl. by rewrite Hn, Hp.
  - intros d name platform -> Hn Hp Hi.
    unfold validate_neuropod_config. simpl. by rewrite Hn, Hp, Hi.
  - intros d name platform input_spec -> Hn Hp Hi Ho.
    unfold validate_neuropod_config. simpl. rewrite Hn, Hp, Hi. simpl.
    destruct (validate_tensor_spec input_spec) as [ [] | e]; simpl; [ | done].
    by rewrite Ho.
Qed.

(** A run of [config_validator_missing_keys]: the name 123 is not what is
    reported for a config without a platform. *)
Lemma config_validator_missing_keys_witness :
  validate_neuropod_config (PyDict (<["name" := PyInt 123]> ∅))
  = Raise (KeyError "platform").
Proof.
  destruct (config_validator_missing_keys (PyDict (<["name" := PyInt 123]> ∅)))
    as (_ & _ & H & _).
  apply (H _ eq_refl); [by eexists | reflexivity].
Defined.

(** X4.  Neither validator looks at a key other than the ones it reads:
    adding, changing or removing any other entry of an item or of a config
    leaves the outcome as it is. *)
Theorem validators_ignore_other_keys (d : gmap string pyval) (key : string) (v : pyval) :
  (key <> "name" -> key <> "dtype" -> key <> "shape" ->
   validate_item (PyDict (<[key := v]> d)) = validate_item (PyDict d) /\
   validate_item (PyDict (delete key d)) = validate_item (PyDict d))
  /\ (key <> "name" -> key <> "platform" -> key <> "input_spec" -> key <> "output_spec" ->
      validate_neuropod_config (PyDict (<[key := v]> d))
      = validate_neuropod_config (PyDict d) /\
      validate_neuropod_config (PyDict (delete key d))
      = validate_neuropod_config (PyDict d)).
Proof.
  split.
  - intros H1 H2 H3. unfold validate_item. simpl.
    by rewrite !lookup_insert_ne, !lookup_delete_ne by done.
  - intros H1 H2 H3 H4. unfold validate_neuropod_config. simpl.
    by rewrite !lookup_insert_ne, !lookup_delete_ne by done.
Qed.

(** A run of [validators_ignore_other_keys]: an item with a ["doc"] entry
    passes like the item without it. *)
Lemma validators_ignore_other_keys_witness :
  validate_item
    (PyDict (<["doc" := PyInt 0]>
               (<["name" := PyStr "x"]> (<["dtype" := PyStr "int8"]>
               (<["shape" := PyList []]> ∅)))))
  = Ok tt.
Proof.
  destruct (validators_ignore_other_keys
              (<["name" := PyStr "x"]> (<["dtype" := PyStr "int8"]>
               (<["shape" := PyList []]> ∅))) "doc" (PyInt 0)) as [H _].
  destruct H as [H _]; [done | done | done | ].
  rewrite H. reflexivity.
Defined.

(** ** Sequences that are no lists *)

Lemma first_key (d : gmap string pyval) :
  d <> ∅ ->
  exists k x rest, d !! k = Some x /\ map_to_list d = (k, x) :: rest.
Proof.
  intros Hne. destruct (map_to_list d) as [ | [k x] rest] eqn:Hd.
  - by apply map_to_list_empty_iff in Hd.
  - exists k, x, rest. split; [ | done].
    apply elem_of_map_to_list. rewrite Hd. left.
Qed.

(** X5.  What is given for a spec is only ever iterated.  A number, a
    boolean or [None] raises the type error for iterating it.  A dict that
    is not empty, as when one item is passed without the list around it,
    is iterated by its keys and raises the type error for subscripting a
    key; a string that is not empty does the same with its first
    character.  The empty dict and the empty string have nothing to
    iterate: they pass the validator and are canonicalised to the empty
    list.  The validator and the canonicalizer agree on each of these. *)
Theorem spec_is_only_iterated (np_dtype_name : pyval -> option string) :
  (forall spec,
     match spec with
     | PyNone | PyBool _ | PyInt _ | PyFloat _ =>
         validate_tensor_spec spec = Raise (NotIterable spec) /\
         canonicalize_tensor_spec np_dtype_name spec = Raise (NotIterable spec)
     | _ => True
     end)
  /\ (forall d : gmap string pyval,
        d <> ∅ ->
        exists k, is_Some (d !! k) /\
          validate_tensor_spec (PyDict d) = Raise (NotSubscriptable (PyStr k)) /\
          canonicalize_tensor_spec np_dtype_name (PyDict d)
          = Raise (NotSubscriptable (PyStr k)))
  /\ (forall c s,
        let first := PyStr (String c EmptyString) in
        validate_tensor_spec (PyStr (String c s)) = Raise (NotSubscriptable first) /\
        canonicalize_tensor_spec np_dtype_name (PyStr (String c s))
        = Raise (NotSubscriptable first))
  /\ (validate_tensor_spec (PyDict ∅) = Ok tt /\
      validate_tensor_spec (PyStr "") = Ok tt /\
      canonicalize_tensor_spec np_dtype_name (PyDict ∅) = Ok (PyList []) /\
      canonicalize_tensor_spec np_dtype_name (PyStr "") = Ok (PyList []) /\
      canonicalize_tensor_spec np_dtype_name (PyTuple []) = Ok (PyList [])).
Proof.
  split; [ | split; [ | split] ].
  - intros [ | b | z | f | s | l | l | d]; done.
  - intros d Hne. destruct (first_key d Hne) as (k & x & rest & Hk & Hd).
    exists k. split; [by eexists | ].
    unfold validate_tensor_spec, canonicalize_tensor_spec. simpl. by rewrite Hd.
  - intros c s first. done.
  - repeat split;
      unfold validate_tensor_spec, canonicalize_tensor_spec; simpl;
      by rewrite ?map_to_list_empty.
Qed.

(** A run of [spec_is_only_iterated]: one item passed as the spec. *)
Lemma spec_is_only_iterated_witness :
  exists k,
    validate_tensor_spec (tensor_item (PyStr "x") (PyStr "int8") (PyList []))
    = Raise (NotSubscriptable (PyStr k)).
Proof.
  destruct (spec_is_only_iterated numpy_dtype_name) as (_ & H & _).
  destruct (H (<["name" := PyStr "x"]> (<["dtype" := PyStr "int8"]>
               (<["shape" := PyList []]> ∅)))) as (k & _ & Hv & _).
  - intros Hempty. apply (f_equal (fun m => m !! "name")) in Hempty.
    by rewrite lookup_insert_eq, lookup_empty in Hempty.
  - exists k. exact Hv.
Defined.

(** ** Composition *)

(** X6.  Validating a list that is two lists one after the other is
    validating the first and then the second: it passes when both pass,
    and it raises the error of the first when the first has one. *)
Theorem validation_of_concatenation (l1 l2 : list pyval) :
  validate_tensor_spec (PyList (l1 ++ l2))
  = (validate_tensor_spec (PyList l1) ≫= fun _ => validate_tensor_spec (PyList l2))
  /\ (validate_tensor_spec (PyList (l1 ++ l2)) = Ok tt <->
      validate_tensor_spec (PyList l1) = Ok tt /\ validate_tensor_spec (PyList l2) = Ok tt).
Proof.
  assert (Heq : validate_tensor_spec (PyList (l1 ++ l2))
                = (validate_tensor_spec (PyList l1) ≫=
                     fun _ => validate_tensor_spec (PyList l2))).
  { rewrite !validate_tensor_spec_list, all_violations_app.
    destruct (all_violations l1) as [ | e es]; reflexivity. }
  split; [exact Heq | ].
  rewrite Heq. destruct (validate_tensor_spec (PyList l1)) as [ [] | e]; simpl.
  - tauto.
  - split; [discriminate | intros [? _]; discriminate].
Qed.

(** ** What canonicalisation builds *)

Lemma canonical_of_keys (np_dtype_name : pyval -> option string) (item out : pyval) :
  canonical_of np_dtype_name item out ->
  exists d canonical,
    out = PyDict d /\ d !! "dtype" = Some (PyStr canonical) /\
    forall k, is_Some (d !! k) <-> k = "name" \/ k = "dtype" \/ k = "shape".
Proof.
  intros (name & dtype & shape & canonical & _ & _ & ->).
  eexists. exists canonical. split; [reflexivity | ]. split; [reflexivity | ].
  intros k.
  destruct (decide (k = "name")) as [-> | H1]; [split; [auto | by eexists] | ].
  rewrite lookup_insert_ne by done.
  destruct (decide (k = "dtype")) as [-> | H2]; [split; [auto | by eexists] | ].
  rewrite lookup_insert_ne by done.
  destruct (decide (k = "shape")) as [-> | H3]; [split; [auto | by eexists] | ].
  rewrite lookup_insert_ne by done. rewrite lookup_empty.
  split; [by intros [? ?] | intros [? | [? | ?] ]; done].
Qed.

(** X7.  Every dict [canonicalize_tensor_spec] returns has the three keys
    name, dtype and shape and no other, with a string for dtype: whatever
    else an item of the input holds is not in the output. *)
Theorem canonical_items_have_three_keys (np_dtype_name : pyval -> option string)
    (spec cspec : pyval) :
  canonicalize_tensor_spec np_dtype_name spec = Ok cspec ->
  exists outs,
    cspec = PyList outs /\
    Forall (fun out =>
              exists d canonical,
                out = PyDict d /\ d !! "dtype" = Some (PyStr canonical) /\
                forall k, is_Some (d !! k) <-> k = "name" \/ k = "dtype" \/ k = "shape")
           outs.
Proof.
  intros Hc. apply canonicalize_tensor_spec_Ok in Hc as (items & outs & _ & -> & H).
  exists outs. split; [reflexivity | ].
  induction H as [ | item out items outs Hx _ IH]; constructor; [ | exact IH].
  by eapply canonical_of_keys.
Qed.

(** A run of [canonical_items_have_three_keys]: the ["doc"] entry of the
    input item is not in the item that comes out. *)
Lemma canonical_items_have_three_keys_witness :
  exists out d,
    canonicalize_tensor_spec numpy_dtype_name
      (PyList [PyDict (<["doc" := PyStr "the input"]>
                         (<["name" := PyStr "x"]> (<["dtype" := PyStr "double"]>
                         (<["shape" := PyList []]> ∅))))])
    = Ok (PyList [out]) /\ out = PyDict d /\ d !! "doc" = None.
Proof.
  destruct (canonical_items_have_three_keys numpy_dtype_name
              (PyList [PyDict (<["doc" := PyStr "the input"]>
                         (<["name" := PyStr "x"]> (<["dtype" := PyStr "double"]>
                         (<["shape" := PyList []]> ∅))))])
              (PyList [tensor_item (PyStr "x") (PyStr "float64") (PyList [])]))
    as (outs & Houts & Hkeys); [reflexivity | ].
  injection Houts as <-.
  inversion Hkeys as [ | ? ? (d & c & Hd & _ & Hk) _]; subst.
  exists (tensor_item (PyStr "x") (PyStr "float64") (PyList [])), d.
  split; [reflexivity | ]. split; [exact Hd | ].
  destruct (d !! "doc") as [x | ] eqn:Hdoc; [ | reflexivity].
  assert (His : is_Some (d !! "doc")) by (by eexists).
  apply Hk in His as [? | [? | ?] ]; discriminate.
Defined.

(** X8.  Under a resolver that gives each name it returns for that name
    again, canonicalising what [canonicalize_tensor_spec] returned returns
    the same list. *)
Theorem canonicalize_twice (np_dtype_name : pyval -> option string) (spec cspec : pyval) :
  idempotent_resolver np_dtype_name ->
  canonicalize_tensor_spec np_dtype_name spec = Ok cspec ->
  canonicalize_tensor_spec np_dtype_name cspec = Ok cspec.
Proof.
  intros Hidem Hc.
  apply canonicalize_tensor_spec_Ok in Hc as (items & outs & _ & -> & H).
  apply canonicalize_fixed_names.
  induction H as [ | item out items outs Hx _ IH]; constructor; [ | exact IH].
  destruct Hx as (name & dtype & shape & canonical & _ & Hnp & ->).
  exists name, canonical, shape. split; [reflexivity | by eapply Hidem].
Qed.

Lemma numpy_dtype_name_idempotent : idempotent_resolver numpy_dtype_name.
Proof.
  intros v name. unfold numpy_dtype_name.
  destruct v as [ | | | | s | | | ]; try discriminate.
  destruct (existsb (String.eqb s) ALLOWED_DTYPES) eqn:Hs.
  - intros [= <-]. by rewrite Hs.
  - destruct (String.eqb s "double"); [by intros [= <-] | ].
    destruct (String.eqb s "float16"); [by intros [= <-] | discriminate].
Qed.

(** A run of [canonicalize_twice] on a spec with the alias ["double"]. *)
Lemma canonicalize_twice_witness :
  canonicalize_tensor_spec numpy_dtype_name
    (PyList [tensor_item (PyStr "x") (PyStr "float64") (PyTuple [PyNone])])
  = Ok (PyList [tensor_item (PyStr "x") (PyStr "float64") (PyTuple [PyNone])]).
Proof.
  apply (canonicalize_twice numpy_dtype_name
           (PyList [tensor_item (PyStr "x") (PyStr "double") (PyTuple [PyNone])])).
  - apply numpy_dtype_name_idempotent.
  - reflexivity.
Defined.

(** ** Reading *)

Lemma json_load_not_tuple (j : json) (l : list pyval) : json_load j <> PyTuple l.
Proof. by destruct j. Qed.

Lemma getitem_json_load (j : json) (key : string) (x : pyval) :
  getitem (json_load j) key = Ok x -> exists j', x = json_load j'.
Proof.
  destruct j; simpl; try discriminate.
  rewrite lookup_fmap. destruct (o !! key) as [j' | ]; simpl; [ | discriminate].
  intros [= <-]. by exists j'.
Qed.

Lemma chars_loaded (s : string) :
  Forall (fun item => exists j', item = json_load j') (chars s).
Proof.
  induction s as [ | c s IH]; simpl; constructor; [ | exact IH].
  by exists (JStr (String c EmptyString)).
Qed.

Lemma py_iter_json_load (j : json) (items : list pyval) :
  py_iter (json_load j) = Ok items ->
  Forall (fun item => exists j', item = json_load j') items.
Proof.
  destruct j; simpl; try discriminate.
  - intros [= <-]. apply chars_loaded.
  - intros [= <-]. apply Forall_map, Forall_forall. intros j' _. by exists j'.
  - intros [= <-]. apply Forall_fmap, Forall_forall. intros k _. by exists (JStr k).
Qed.

Lemma read_neuropod_config_Ok (fs : filesystem) (dir : string) (config : pyval) :
  read_neuropod_config fs dir = Ok config <->
  exists j,
    fs !! path_join dir "config.json" = Some (File (JsonFile j)) /\
    config = json_load j /\
    validate_neuropod_config config = Ok tt.
Proof.
  unfold read_neuropod_config, open_r. split.
  - destruct (fs !! path_join dir "config.json") as [ [ | [ | j] ] | ]; try discriminate.
    simpl. destruct (validate_neuropod_config (json_load j)) as [ [] | e] eqn:Hv;
      simpl; [ | discriminate].
    intros [= <-]. by exists j.
  - intros (j & -> & -> & Hv). simpl. by rewrite Hv.
Qed.

(** X9.  [read_neuropod_config] returns a config exactly when the file is
    there, holds a JSON document, and the loaded document passes the Config
    Validator; what it returns is the loaded document itself.  When the
    validator raises, the call raises that error; an empty file raises the
    decoding error; a path that names no file raises the error of
    [open]. *)
Theorem read_returns_validated_document (fs : filesystem) (dir : string) :
  let path := path_join dir "config.json" in
  (forall config,
     read_neuropod_config fs dir = Ok config <->
     exists j,
       fs !! path = Some (File (JsonFile j)) /\
       config = json_load j /\
       validate_neuropod_config config = Ok tt)
  /\ (forall j e,
        fs !! path = Some (File (JsonFile j)) ->
        validate_neuropod_config (json_load j) = Raise e ->
        read_neuropod_config fs dir = Raise e)
  /\ (fs !! path = Some (File EmptyFile) ->
      read_neuropod_config fs dir = Raise JSONDecodeError)
  /\ ((forall c, fs !! path <> Some (File c)) ->
      read_neuropod_config fs dir = Raise (IOError path)).
Proof.
  intros path. split; [ | split; [ | split] ].
  - intros config. apply read_neuropod_config_Ok.
  - intros j e Hfile Hv. unfold read_neuropod_config, open_r.
    fold path. rewrite Hfile. simpl. by rewrite Hv.
  - intros Hfile. unfold read_neuropod_config, open_r. fold path. by rewrite Hfile.
  - intros Hno. unfold read_neuropod_config, open_r. fold path.
    destruct (fs !! path) as [ [ | c] | ]; try reflexivity. by destruct (Hno c).
Qed.

(** A run of [read_returns_validated_document]: a hand-written document
    whose name is a number is refused with the error of the validator. *)
Lemma read_returns_validated_document_witness :
  read_neuropod_config
    (<["pkg/config.json" :=
         File (JsonFile (JObj (<["name" := JInt 1]> (<["platform" := JStr "python"]> ∅))))]>
       (<["pkg" := Dir]> ∅)) "pkg"
  = Raise (InvalidFieldType InConfig "name" (PyInt 1)).
Proof.
  destruct (read_returns_validated_document
              (<["pkg/config.json" :=
                   File (JsonFile (JObj (<["name" := JInt 1]>
                                           (<["platform" := JStr "python"]> ∅))))]>
                 (<["pkg" := Dir]> ∅)) "pkg") as (_ & H & _).
  eapply H; reflexivity.
Defined.

Lemma valid_loaded_item (item : pyval) :
  (exists j, item = json_load j) ->
  valid_item item ->
  exists dims, getitem item "shape" = Ok (PyList dims).
Proof.
  intros (j & ->) (name & dtype & shape & dims & (_ & _ & Hs) & _ & Hshape & _).
  destruct (getitem_json_load _ _ _ Hs) as (js & Hjs).
  destruct Hshape as [-> | ->].
  - by exists dims.
  - symmetry in Hjs. by apply json_load_not_tuple in Hjs.
Qed.

Lemma valid_loaded_spec (j : json) :
  validate_tensor_spec (json_load j) = Ok tt ->
  exists items,
    py_iter (json_load j) = Ok items /\
    Forall (fun item => valid_item item /\
                        exists dims, getitem item "shape" = Ok (PyList dims)) items.
Proof.
  intros Hv. apply validate_tensor_spec_valid in Hv as (items & Hit & Hvalid).
  exists items. split; [exact Hit | ].
  pose proof (py_iter_json_load _ _ Hit) as Hloaded.
  apply Forall_forall. intros item Hitem.
  rewrite Forall_forall in Hvalid, Hloaded.
  split; [by apply Hvalid | ].
  apply valid_loaded_item; [by apply Hloaded | by apply Hvalid].
Qed.

(** X10.  What a caller of [read_neuropod_config] can rely on: the config
    it gets has a string for name and for platform, and each of its two
    spec sequences can be iterated and holds only items with a string
    name, an allowed dtype, and for shape a list, never a tuple, of
    accepted dimensions. *)
Theorem loaded_config_is_well_formed (fs : filesystem) (dir : string) (config : pyval) :
  read_neuropod_config fs dir = Ok config ->
  exists name platform input_spec output_spec ins outs,
    getitem config "name" = Ok (PyStr name) /\
    getitem config "platform" = Ok (PyStr platform) /\
    getitem config "input_spec" = Ok input_spec /\
    getitem config "output_spec" = Ok output_spec /\
    py_iter input_spec = Ok ins /\
    py_iter output_spec = Ok outs /\
    Forall (fun item => valid_item item /\
                        exists dims, getitem item "shape" = Ok (PyList dims))
           (ins ++ outs).
Proof.
  intros Hread. apply read_neuropod_config_Ok in Hread as (j & _ & -> & Hv).
  apply validate_neuropod_config_Ok in Hv
    as (name & platform & input_spec & output_spec & Hn & Hp & Hi & Ho & Hvi & Hvo).
  destruct (getitem_json_load _ _ _ Hi) as (ji & ->).
  destruct (getitem_json_load _ _ _ Ho) as (jo & ->).
  destruct (valid_loaded_spec _ Hvi) as (ins & Hiti & Hins).
  destruct (valid_loaded_spec _ Hvo) as (outs & Hito & Houts).
  exists name, platform, (json_load ji), (json_load jo), ins, outs.
  repeat split; try done. apply Forall_app. by split.
Qed.

(** A run of [loaded_config_is_well_formed] on a package written with a
    tuple for shape. *)
Lemma loaded_config_is_well_formed_witness :
  exists fs config name platform input_spec output_spec ins outs,
    write_neuropod_config numpy_dtype_name (<["pkg" := Dir]> ∅) "pkg"
      (PyStr "m") (PyStr "python")
      (PyList [tensor_item (PyStr "x") (PyStr "double") (PyTuple [PyNone; PyInt 3])])
      (PyList []) = (fs, Ok tt) /\
    read_neuropod_config fs "pkg" = Ok config /\
    getitem config "name" = Ok (PyStr name) /\
    getitem config "platform" = Ok (PyStr platform) /\
    getitem config "input_spec" = Ok input_spec /\
    getitem config "output_spec" = Ok output_spec /\
    py_iter input_spec = Ok ins /\
    py_iter output_spec = Ok outs /\
    Forall (fun item => valid_item item /\
                        exists dims, getitem item "shape" = Ok (PyList dims))
           (ins ++ outs).
Proof.
  destruct (write_neuropod_config numpy_dtype_name (<["pkg" := Dir]> ∅) "pkg"
              (PyStr "m") (PyStr "python")
              (PyList [tensor_item (PyStr "x") (PyStr "double")
                                   (PyTuple [PyNone; PyInt 3])])
              (PyList [])) as [fs r] eqn:Hw.
  assert (Hr : r = Ok tt).
  { apply (f_equal snd) in Hw. vm_compute in Hw. by subst r. }
  subst r.
  destruct (read_neuropod_config fs "pkg") as [config | e] eqn:Hread.
  - destruct (loaded_config_is_well_formed fs "pkg" config Hread)
      as (name & platform & input_spec & output_spec & ins & outs & H).
    exists fs, config, name, platform, input_spec, output_spec, ins, outs. auto.
  - exfalso. apply (f_equal fst) in Hw. simpl in Hw. subst fs.
    vm_compute in Hread. discriminate.
Defined.

(** ** Writing *)

Section Writing.

Variable np_dtype_name : pyval -> option string.

Lemma open_w_Raise (fs : filesystem) (dir path : string) :
  fs !! dir <> Some Dir \/ fs !! path = Some Dir ->
  open_w fs dir path = Raise (IOError path).
Proof.
  unfold open_w. intros [Hd | Hp].
  - destruct (fs !! dir) as [ [ | c] | ]; try reflexivity. by destruct Hd.
  - destruct (fs !! dir) as [ [ | c] | ]; try reflexivity. by rewrite Hp.
Qed.

Lemma open_w_cases (fs : filesystem) (dir path : string) :
  (fs !! dir = Some Dir /\ fs !! path <> Some Dir /\
   open_w fs dir path = Ok (<[path := File EmptyFile]> fs))
  \/ ((fs !! dir <> Some Dir \/ fs !! path = Some Dir) /\
      open_w fs dir path = Raise (IOError path)).
Proof.
  assert (Hdec : forall o : option node, o = Some Dir \/ o <> Some Dir).
  { intros [ [ | c] | ]; [by left | by right | by right]. }
  destruct (Hdec (fs !! dir)) as [Hd | Hd].
  - destruct (Hdec (fs !! path)) as [Hp | Hp].
    + right. split; [by right | apply open_w_Raise; by right].
    + left. repeat split; try done. by apply open_w_Ok.
  - right. split; [by left | apply open_w_Raise; by left].
Qed.

Lemma build_config_canonicalize_input (model_name platform input_spec output_spec : pyval)
    (e : error) :
  canonicalize_tensor_spec np_dtype_name input_spec = Raise e ->
  build_config np_dtype_name model_name platform input_spec output_spec = Raise e.
Proof. intros H. unfold build_config. by rewrite H. Qed.

Lemma build_config_canonicalize_output (model_name platform input_spec output_spec cin : pyval)
    (e : error) :
  canonicalize_tensor_spec np_dtype_name input_spec = Ok cin ->
  canonicalize_tensor_spec np_dtype_name output_spec = Raise e ->
  build_config np_dtype_name model_name platform input_spec output_spec = Raise e.
Proof. intros Hi Ho. unfold build_config. by rewrite Hi, Ho. Qed.

End Writing.

(** X11.  [write_neuropod_config] changes the file system at one path
    only, [config.json] of the directory it is given: every other path
    holds after the call what it held before, whether the call returns or
    raises. *)
Theorem write_touches_one_path (np_dtype_name : pyval -> option string)
    (fs : filesystem) (dir other : string)
    (model_name platform input_spec output_spec : pyval) :
  other <> path_join dir "config.json" ->
  (write_neuropod_config np_dtype_name fs dir
     model_name platform input_spec output_spec).1 !! other
  = fs !! other.
Proof.
  intros Hother. unfold write_neuropod_config.
  destruct (open_w_cases fs dir (path_join dir "config.json"))
    as [(_ & _ & ->) | (_ & ->)]; [ | reflexivity].
  destruct (build_config _ _ _ _ _) as [config | e]; simpl.
  - by rewrite !lookup_insert_ne by done.
  - by rewrite lookup_insert_ne by done.
Qed.

(** A run of [write_touches_one_path]: a file beside the config. *)
Lemma write_touches_one_path_witness :
  (write_neuropod_config numpy_dtype_name
     (<["pkg" := Dir]> (<["pkg/model.bin" := File EmptyFile]> ∅)) "pkg"
     (PyStr "m") (PyStr "python") (PyList []) (PyList [])).1 !! "pkg/model.bin"
  = Some (File EmptyFile).
Proof.
  rewrite write_touches_one_path; [reflexivity | discriminate].
Defined.

(** X12.  When the directory does not exist, or [config.json] in it is a
    directory, the call raises the error of [open] and the file system is
    as it was: nothing is canonicalised or validated, so this is the error
    also for arguments that are not valid. *)
Theorem write_without_directory (np_dtype_name : pyval -> option string)
    (fs : filesystem) (dir : string)
    (model_name platform input_spec output_spec : pyval) :
  fs !! dir <> Some Dir \/ fs !! path_join dir "config.json" = Some Dir ->
  write_neuropod_config np_dtype_name fs dir model_name platform input_spec output_spec
  = (fs, Raise (IOError (path_join dir "config.json"))).
Proof.
  intros H. unfold write_neuropod_config. by rewrite (open_w_Raise _ _ _ H).
Qed.

(** A run of [write_without_directory] on an empty file system, with a
    name that is no string. *)
Lemma write_without_directory_witness :
  write_neuropod_config numpy_dtype_name ∅ "pkg" (PyInt 123) PyNone PyNone PyNone
  = (∅, Raise (IOError "pkg/config.json")).
Proof.
  apply (write_without_directory numpy_dtype_name ∅ "pkg"). by left.
Defined.

(** X13.  Inside the call both spec sequences are canonicalised before
    anything is validated, the input first: an error of the canonicalizer
    on input_spec is what the call raises whatever the other arguments
    are, and one on output_spec is what it raises once input_spec has
    canonicalised, also when model_name or platform is no string. *)
Theorem canonicalization_errors_come_first (np_dtype_name : pyval -> option string)
    (fs : filesystem) (dir : string)
    (model_name platform input_spec output_spec : pyval) (e : error) :
  fs !! dir = Some Dir ->
  fs !! path_join dir "config.json" <> Some Dir ->
  (canonicalize_tensor_spec np_dtype_name input_spec = Raise e ->
   (write_neuropod_config np_dtype_name fs dir
      model_name platform input_spec output_spec).2 = Raise e)
  /\ (forall cin,
        canonicalize_tensor_spec np_dtype_name input_spec = Ok cin ->
        canonicalize_tensor_spec np_dtype_name output_spec = Raise e ->
        (write_neuropod_config np_dtype_name fs dir
           model_name platform input_spec output_spec).2 = Raise e).
Proof.
  intros Hd Hp. split.
  - intros Hi. rewrite (write_neuropod_config_Raise _ _ _ e); try done.
    by apply build_config_canonicalize_input.
  - intros cin Hi Ho. rewrite (write_neuropod_config_Raise _ _ _ e); try done.
    by eapply build_config_canonicalize_output.
Qed.

(** A run of [canonicalization_errors_come_first]: with the name 123 and
    a dtype the resolver does not know, the dtype is what is reported. *)
Lemma canonicalization_errors_come_first_witness :
  (write_neuropod_config numpy_dtype_name (<["pkg" := Dir]> ∅) "pkg"
     (PyInt 123) (PyStr "python")
     (PyList [tensor_item (PyStr "x") (PyStr "floatish") (PyList [])])
     (PyList [])).2
  = Raise (UnrecognizedDtype (PyStr "floatish")).
Proof.
  apply canonicalization_errors_come_first; [reflexivity | by vm_compute | reflexivity].
Defined.








(** X16.  After a call that returned, the next call to the same directory
    ends as it would have without the first, and leaves the file system it
    would have left without it: the second write replaces all the first
    did.  In particular the same call made twice leaves what it left the
    first time. *)
Theorem second_write_replaces_first (np_dtype_name : pyval -> option string)
    (fs fs1 : filesystem) (dir : string)
    (model_name platform input_spec output_spec : pyval) :
  write_neuropod_config np_dtype_name fs dir model_name platform input_spec output_spec
  = (fs1, Ok tt) ->
  (forall model_name' platform' input_spec' output_spec',
     write_neuropod_config np_dtype_name fs1 dir
       model_name' platform' input_spec' output_spec'
     = write_neuropod_config np_dtype_name fs dir
         model_name' platform' input_spec' output_spec')
  /\ write_neuropod_config np_dtype_name fs1 dir
       model_name platform input_spec output_spec = (fs1, Ok tt).
Proof.
  intros Hw.
  assert (Hsame : forall model_name' platform' input_spec' output_spec',
            write_neuropod_config np_dtype_name fs1 dir
              model_name' platform' input_spec' output_spec'
            = write_neuropod_config np_dtype_name fs dir
                model_name' platform' input_spec' output_spec').
  { intros model_name' platform' input_spec' output_spec'.
    apply write_neuropod_config_Ok in Hw as (config & Hd & Hp & _ & ->).
    set (path := path_join dir "config.json") in *.
    assert (Hdp : dir <> path) by congruence.
    unfold write_neuropod_config. fold path.
    assert (Ho1 : open_w (<[path := File (JsonFile (json_dump config))]> fs) dir path
                  = Ok (<[path := File EmptyFile]> fs)).
    { apply open_w_Ok. rewrite lookup_insert_ne by done. rewrite lookup_insert_eq.
      repeat split; [done | discriminate | by rewrite insert_insert_eq]. }
    assert (Ho : open_w fs dir path = Ok (<[path := File EmptyFile]> fs))
      by (by apply open_w_Ok).
    by rewrite Ho1, Ho. }
  split; [exact Hsame | ]. by rewrite Hsame.
Qed.

(** A run of [second_write_replaces_first]: after a first write, a call
    with the name 123 ends as it does on the package before that write. *)
Lemma second_write_replaces_first_witness :
  exists fs1,
    write_neuropod_config numpy_dtype_name (<["pkg" := Dir]> ∅) "pkg"
      (PyStr "m") (PyStr "python") (PyList []) (PyList []) = (fs1, Ok tt) /\
    write_neuropod_config numpy_dtype_name fs1 "pkg"
      (PyInt 123) (PyStr "python") (PyList []) (PyList [])
    = (<["pkg/config.json" := File EmptyFile]> (<["pkg" := Dir]> ∅),
       Raise (InvalidFieldType InConfig "name" (PyInt 123))).
Proof.
  destruct (write_neuropod_config numpy_dtype_name (<["pkg" := Dir]> ∅) "pkg"
              (PyStr "m") (PyStr "python") (PyList []) (PyList [])) as [fs1 r] eqn:Hw.
  assert (Hr : r = Ok tt).
  { apply (f_equal snd) in Hw. vm_compute in Hw. by subst r. }
  subst r. exists fs1. split; [reflexivity | ].
  rewrite (proj1 (second_write_replaces_first _ _ _ _ _ _ _ _ Hw)).
  vm_compute. reflexivity.
Defined.

(** ** Saving what was loaded *)

Lemma json_dump_tuples_to_lists (v : pyval) :
  json_dump (tuples_to_lists v) = json_dump v.
Proof.
  induction v as [ | b | z | f | s | l IH | l IH | d IH] using pyval_ind_deep;
    simpl; try reflexivity.
  - f_equal. rewrite map_map. apply map_ext_in. intros x Hx.
    rewrite Forall_forall in IH. apply IH. by apply list_elem_of_In.
  - f_equal. rewrite map_map. apply map_ext_in. intros x Hx.
    rewrite Forall_forall in IH. apply IH. by apply list_elem_of_In.
  - f_equal. rewrite <- map_fmap_compose. apply map_fmap_ext.
    intros k x Hk. exact (IH k x Hk).
Qed.

Lemma canonicalize_loaded (np_dtype_name : pyval -> option string) (spec cspec : pyval) :
  fixes_allowed_names np_dtype_name ->
  canonicalize_tensor_spec np_dtype_name spec = Ok cspec ->
  validate_tensor_spec cspec = Ok tt ->
  canonicalize_tensor_spec np_dtype_name (tuples_to_lists cspec)
  = Ok (tuples_to_lists cspec).
Proof.
  intros Hfix Hc Hv.
  apply canonicalize_tensor_spec_Ok in Hc as (items & outs & _ & -> & H).
  rewrite validate_tensor_spec_list, first_violation_Ok, all_violations_nil in Hv.
  simpl. apply canonicalize_fixed_names.
  induction H as [ | item out items outs Hx _ IH]; simpl; [constructor | ].
  inversion Hv as [ | ? ? Hout Hrest]; subst.
  constructor; [ | by apply IH].
  destruct (canonical_item_valid_dtype _ _ _ Hx Hout) as (s & Hs & Hin).
  destruct Hx as (name & dtype & shape & canonical & _ & _ & ->).
  destruct (getitem_tensor_item name (PyStr canonical) shape) as (_ & Hd & _).
  rewrite Hd in Hs. injection Hs as <-.
  exists (tuples_to_lists name), canonical, (tuples_to_lists shape).
  split; [apply tuples_to_lists_tensor_item | by apply Hfix].
Qed.

(** X17.  Under a resolver that maps each allowed name to itself, what
    [read_neuropod_config] returns after a write can be written back as
    it is: the call with the name, the platform and the two spec
    sequences of the loaded config returns and leaves the file system,
    and so the file, unchanged. *)
Theorem saving_a_loaded_config_changes_nothing
    (np_dtype_name : pyval -> option string)
    (fs fs1 : filesystem) (dir : string)
    (model_name platform input_spec output_spec : pyval) :
  fixes_allowed_names np_dtype_name ->
  write_neuropod_config np_dtype_name fs dir model_name platform input_spec output_spec
  = (fs1, Ok tt) ->
  exists loaded_input loaded_output,
    read_neuropod_config fs1 dir
    = Ok (make_config model_name platform loaded_input loaded_output)
    /\ write_neuropod_config np_dtype_name fs1 dir
         model_name platform loaded_input loaded_output
       = (fs1, Ok tt).
Proof.
  intros Hfix Hw.
  apply write_neuropod_config_Ok in Hw as (config & Hd & Hp & Hb & ->).
  apply build_config_Ok in Hb as (cin & cout & Hi & Ho & Hv & ->).
  set (path := path_join dir "config.json") in *.
  set (config := make_config model_name platform cin cout) in *.
  assert (Hloaded : tuples_to_lists config
                    = make_config model_name platform
                        (tuples_to_lists cin) (tuples_to_lists cout)).
  { subst config. rewrite tuples_to_lists_make_config.
    apply validate_make_config_Ok in Hv as (Hn & Hpl & _).
    destruct model_name; try discriminate. by destruct platform. }
  exists (tuples_to_lists cin), (tuples_to_lists cout). split.
  - rewrite <- Hloaded. apply read_dumped_config; [ | exact Hv].
    apply lookup_insert_eq.
  - apply write_neuropod_config_Ok.
    exists (tuples_to_lists config).
    assert (Hdp : dir <> path) by congruence.
    split; [by rewrite lookup_insert_ne | ].
    split; [fold path; rewrite lookup_insert_eq; discriminate | ].
    split.
    + apply build_config_Ok.
      exists (tuples_to_lists cin), (tuples_to_lists cout).
      pose proof (validate_neuropod_config_tuples_to_lists _ Hv) as Hv'.
      rewrite Hloaded in Hv'.
      apply validate_make_config_Ok in Hv as (_ & _ & Hvi & Hvo).
      split; [by apply (canonicalize_loaded _ input_spec) | ].
      split; [by apply (canonicalize_loaded _ output_spec) | ].
      split; [exact Hv' | exact Hloaded].
    + fold path. by rewrite json_dump_tuples_to_lists, insert_insert_eq.
Qed.

Lemma numpy_dtype_name_fixes_allowed : fixes_allowed_names numpy_dtype_name.
Proof. intros d. apply numpy_fixes_allowed. Qed.

(** A run of [saving_a_loaded_config_changes_nothing] on a package written
    with the alias ["double"] and a tuple for shape. *)
Lemma saving_a_loaded_config_changes_nothing_witness :
  exists fs1 loaded_input loaded_output,
    read_neuropod_config fs1 "pkg"
    = Ok (make_config (PyStr "m") (PyStr "python") loaded_input loaded_output)
    /\ write_neuropod_config numpy_dtype_name fs1 "pkg"
         (PyStr "m") (PyStr "python") loaded_input loaded_output
       = (fs1, Ok tt).
Proof.
  destruct (write_neuropod_config numpy_dtype_name (<["pkg" := Dir]> ∅) "pkg"
              (PyStr "m") (PyStr "python")
              (PyList [tensor_item (PyStr "x") (PyStr "double") (PyTuple [PyNone])])
              (PyList [])) as [fs1 r] eqn:Hw.
  assert (Hr : r = Ok tt).
  { apply (f_equal snd) in Hw. vm_compute in Hw. by subst r. }
  subst r. exists fs1.
  exact (saving_a_loaded_config_changes_nothing _ _ _ _ _ _ _ _
           numpy_dtype_name_fixes_allowed Hw).
Defined.

(** ** The Config Validator as a whole *)

(** X18.  The Config Validator returns normally exactly for a dict with a
    string under name and under platform and, under input_spec and
    output_spec, two values that can be iterated and hold only items the
    Tensor Spec Validator lets through. *)
Theorem config_validator_accepts (config : pyval) :
  validate_neuropod_config config = Ok tt <->
  exists name platform input_spec output_spec ins outs,
    getitem config "name" = Ok (PyStr name) /\
    getitem config "platform" = Ok (PyStr platform) /\
    getitem config "input_spec" = Ok input_spec /\
    getitem config "output_spec" = Ok output_spec /\
    py_iter input_spec = Ok ins /\ py_iter output_spec = Ok outs /\
    Forall valid_item ins /\ Forall valid_item outs.
Proof.
  rewrite validate_neuropod_config_Ok. split.
  - intros (name & platform & input_spec & output_spec & Hn & Hp & Hi & Ho & Hvi & Hvo).
    apply validate_tensor_spec_valid in Hvi as (ins & Hiti & Hins).
    apply validate_tensor_spec_valid in Hvo as (outs & Hito & Houts).
    exists name, platform, input_spec, output_spec, ins, outs. auto 10.
  - intros (name & platform & input_spec & output_spec & ins & outs
            & Hn & Hp & Hi & Ho & Hiti & Hito & Hins & Houts).
    exists name, platform, input_spec, output_spec.
    repeat split; try done; apply validate_tensor_spec_valid; eauto.
Qed.

(** A run of [config_validator_accepts]: a config with an extra entry and
    a tuple of items passes. *)
Lemma config_validator_accepts_witness :
  validate_neuropod_config
    (PyDict (<["version" := PyInt 1]>
       (<["name" := PyStr "m"]> (<["platform" := PyStr "python"]>
       (<["input_spec" :=
            PyTuple [tensor_item (PyStr "x") (PyStr "uint8") (PyList [PyInt 3])]]>
       (<["output_spec" := PyList []]> ∅))))))
  = Ok tt.
Proof.
  apply config_validator_accepts.
  exists "m", "python",
         (PyTuple [tensor_item (PyStr "x") (PyStr "uint8") (PyList [PyInt 3])]),
         (PyList []),
         [tensor_item (PyStr "x") (PyStr "uint8") (PyList [PyInt 3])], [].
  repeat (split; [reflexivity | ]). split; [ | constructor].
  constructor; [ | constructor].
  exists "x", "uint8", (PyList [PyInt 3]), [PyInt 3].
  split; [apply getitem_tensor_item | ].
  split; [simpl; tauto | ].
  split; [by left | ].
  repeat constructor.
Defined.

(** ** The objects canonicalisation makes *)

Section StoreObjects.

Variable np_dtype_name : Store.heap -> Store.value -> option string.

Lemma canonicalize_loop_distinct (t : Store.loc) (items : list Store.value) :
  forall (h h' : Store.heap) (outs : list Store.value),
    h !! t = Some (Store.OList outs) ->
    Store.for_each (Store.canonicalize_step np_dtype_name t) items h
    = (h', Store.Return tt) ->
    exists outs',
      h' !! t = Some (Store.OList (outs ++ outs')) /\
      length outs' = length items /\
      NoDup outs' /\
      Forall (fun out => exists d, out = Store.VRef d /\ d <> t /\ h !! d = None) outs'.
Proof.
  induction items as [ | item items IH]; intros h h' outs Ht Hrun.
  - injection Hrun as <-. exists []. rewrite app_nil_r.
    repeat split; [done | constructor | constructor].
  - simpl in Hrun. rewrite run_bind in Hrun.
    destruct (Store.canonicalize_step np_dtype_name t item h) as [h1 [ [] | e] ] eqn:Hstep;
      [ | discriminate].
    apply (canonicalize_step_run _ _ _ _ _ _ _ Ht) in Hstep
      as (d & name & dtype & shape & canonical & Hfresh & _ & ->).
    assert (Hdt : d <> t) by congruence.
    set (h1 := <[t := Store.OList (outs ++ [Store.VRef d])]>
                 (<[d := Store.tensor_item name (Store.VStr canonical) shape]> h)) in *.
    assert (Ht1 : h1 !! t = Some (Store.OList (outs ++ [Store.VRef d])))
      by apply lookup_insert_eq.
    destruct (IH h1 h' _ Ht1 Hrun) as (outs' & Ht' & Hlen & Hnd & Hall).
    exists (Store.VRef d :: outs'). rewrite <- app_assoc in Ht'.
    split; [exact Ht' | ]. split; [simpl; by rewrite Hlen | ].
    assert (Hd1 : h1 !! d <> None).
    { unfold h1. rewrite lookup_insert_ne by done. by rewrite lookup_insert_eq. }
    split.
    + apply NoDup_cons. split; [ | exact Hnd].
      intros Hin. rewrite Forall_forall in Hall.
      destruct (Hall _ Hin) as (d' & [= <-] & _ & Hnone). by apply Hd1.
    + constructor; [by exists d | ].
      eapply Forall_impl; [exact Hall | ].
      intros out (d' & -> & Hd't & Hnone). exists d'. repeat split; try done.
      unfold h1 in Hnone. rewrite lookup_insert_ne in Hnone by done.
      destruct (decide (d' = d)) as [-> | Hne].
      * by rewrite lookup_insert_eq in Hnone.
      * by rewrite lookup_insert_ne in Hnone.
Qed.

End StoreObjects.

(** X19.  Over the store, the list [canonicalize_tensor_spec] returns
    holds one reference for each item of the sequence, all of them
    different and none of them to an object that existed before the call
    or to the list itself: two items of the result are never the same
    dict, also when two items of the input are. *)
Theorem canonical_items_are_separate_objects
    (np_dtype_name : Store.heap -> Store.value -> option string)
    (spec out : Store.value) (h h' : Store.heap) :
  Store.canonicalize_tensor_spec np_dtype_name spec h = (h', Store.Return out) ->
  exists t items outs,
    out = Store.VRef t /\
    Store.iterate spec h' = (h', Store.Return items) /\
    h' !! t = Some (Store.OList outs) /\
    length outs = length items /\
    NoDup outs /\
    Forall (fun o => exists d, o = Store.VRef d /\ d <> t /\ h !! d = None) outs.
Proof.
  intros Hrun.
  destruct (canonicalize_tensor_spec_run _ _ _ _ _ Hrun) as [_ Hok].
  destruct (Hok out eq_refl) as (t & items & outs & -> & Hfresh & Ht' & Hit & Hrel).
  unfold Store.canonicalize_tensor_spec in Hrun.
  rewrite run_bind in Hrun. unfold Store.alloc in Hrun.
  set (t0 := fresh (dom h)) in *.
  set (h1 := <[t0 := Store.OList []]> h) in *.
  assert (Ht1 : h1 !! t0 = Some (Store.OList [])) by apply lookup_insert_eq.
  rewrite run_bind in Hrun.
  pose proof (read_only_iterate spec h1) as Hro.
  destruct (Store.iterate spec h1) as [h1' [items0 | e] ] eqn:Hit0;
    simpl in Hro; subst h1'; [ | discriminate].
  rewrite run_bind in Hrun.
  destruct (Store.for_each _ items0 h1) as [h2 [ [] | e] ] eqn:Hloop; [ | discriminate].
  injection Hrun as -> Ht. subst t.
  destruct (canonicalize_loop_distinct _ _ _ _ _ _ Ht1 Hloop)
    as (outs' & Ht2 & Hlen & Hnd & Hall).
  simpl in Ht2. rewrite Ht' in Ht2. injection Ht2 as ->.
  exists t0, items, outs'. repeat split; try done.
  - rewrite Hlen. symmetry.
    transitivity (length outs'); [by eapply Forall2_length | exact Hlen].
  - eapply Forall_impl; [exact Hall | ].
    intros o (d & -> & Hdt & Hnone). exists d. repeat split; try done.
    unfold h1 in Hnone. by rewrite lookup_insert_ne in Hnone.
Qed.

(** A run of [canonical_items_are_separate_objects] on a list that holds
    the same dict twice. *)
Lemma canonical_items_are_separate_objects_witness :
  let item := Store.tensor_item (Store.VStr "x") (Store.VStr "int8") (Store.VTuple []) in
  let h : Store.heap :=
    <[0%nat := Store.OList [Store.VRef 1; Store.VRef 1]]> (<[1%nat := item]> ∅) in
  exists h' t a b,
    Store.canonicalize_tensor_spec Store.numpy_dtype_name (Store.VRef 0) h
    = (h', Store.Return (Store.VRef t)) /\
    h' !! t = Some (Store.OList [a; b]) /\ a <> b.
Proof.
  intros item h.
  destruct (Store.canonicalize_tensor_spec Store.numpy_dtype_name (Store.VRef 0) h)
    as [h' r] eqn:Hrun.
  assert (Hr : exists out, r = Store.Return out).
  { apply (f_equal snd) in Hrun. vm_compute in Hrun. subst r. by eexists. }
  destruct Hr as (out & ->).
  destruct (canonical_items_are_separate_objects _ _ _ _ _ Hrun)
    as (t & items & outs & -> & Hit & Ht & Hlen & Hnd & _).
  assert (Hframe : h' !! 0%nat = Some (Store.OList [Store.VRef 1; Store.VRef 1])).
  { destruct (canonicalize_tensor_spec_run _ _ _ _ _ Hrun) as [Hframe _].
    by apply Hframe. }
  simpl in Hit. rewrite run_bind in Hit. unfold Store.deref in Hit.
  rewrite Hframe in Hit. injection Hit as <-.
  destruct outs as [ | a [ | b [ | c outs] ] ]; try discriminate.
  exists h', t, a, b. repeat split; try done.
  apply NoDup_cons in Hnd as [Hnotin _].
  intros ->. apply Hnotin. left.
Defined.
